(** * analyze.py: the suspicious-event classifier

    A shallow embedding of [analyze_suspicious_windows_events] from
    [analyze.py] and the properties of its per-record scoring.

    The function walks the rows of a pandas DataFrame.  A row is a finite
    map from column labels to cell values; the cells are the values that
    [json.load] produces (None, bool, int, float, str, list, dict), where a
    float may also be the NaN that pandas stores for a key missing from one
    record.  The [_time] cell, which the loader turns into a timestamp, is
    only copied into the result and stands here for whatever value it holds.
    Text is modelled as [string], read as the UTF-8 encoding of the str.
    [int(str)] reads the whitespace and the decimal digits of Unicode as the
    interpreter does.  [str.lower] is embedded for the ASCII letters; a
    letter outside ASCII is left as it is, which flags the same process
    names, since no lowering of such a letter completes a listed name.

    The tables that [print_suspicious_summary] and [create_visualizations]
    compute from the results (counts per event, the high-risk selection, the
    risk levels) are embedded too; their printing and drawing are not. *)

From Stdlib Require Import ZArith String Ascii List Bool Lia.
From Stdlib Require Import SpecFloat DecimalString DecimalPos.
From stdpp Require Import base option list gmap strings sorting.

#[local] Set Warnings "-register-all".

Open Scope string_scope.
Open Scope Z_scope.
Open Scope list_scope.

(** ** Python values *)

Module Py.

(** The exceptions the modelled builtins can raise. *)
Inductive exn : Type :=
  | ValueError
  | TypeError
  | OverflowError.

(** An evaluation either returns a value or raises. *)
Inductive res (A : Type) : Type :=
  | Ok (a : A)
  | Raise (e : exn).
Arguments Ok {A} a.
Arguments Raise {A} e.

Definition bind {A B} (m : res A) (k : A -> res B) : res B :=
  match m with
  | Ok a => k a
  | Raise e => Raise e
  end.

(** A cell value.  A float is an IEEE-754 datum ([spec_float]): a signed zero,
    an infinity, NaN, or [(-1)^s * m * 2^e]. *)
Inductive val : Type :=
  | PNone
  | PBool (b : bool)
  | PInt (n : Z)
  | PFloat (f : spec_float)
  | PStr (s : string)
  | PList (l : list val)
  | PDict (d : list (string * val)).

(** [bool(v)], as used by [not v]. *)
Definition truthy (v : val) : bool :=
  match v with
  | PNone => false
  | PBool b => b
  | PInt n => negb (n =? 0)
  | PFloat f =>
      match f with
      | S754_zero _ => false
      | _ => true
      end
  | PStr s => negb (String.eqb s "")
  | PList l => negb (Nat.eqb (List.length l) 0)
  | PDict d => negb (Nat.eqb (List.length d) 0)
  end.

(** *** [int(float)]: truncation towards zero; NaN and the infinities raise. *)
Definition int_of_float (f : spec_float) : res Z :=
  match f with
  | S754_zero _ => Ok 0
  | S754_infinity _ => Raise OverflowError
  | S754_nan => Raise ValueError
  | S754_finite s m e =>
      let mag := if 0 <=? e then Z.pos m * 2 ^ e else Z.pos m / 2 ^ (- e) in
      Ok (if s then - mag else mag)
  end.

(** *** Text

    A str is held as its UTF-8 encoding: U+00A0 is the two bytes 194 160 and
    the fullwidth digit four, U+FF14, the three bytes 239 188 148.  A byte
    that starts no well-formed sequence is read as the code point of its own
    value. *)
Definition byte (c : ascii) : Z := Z.of_nat (nat_of_ascii c).

Definition chr (cp : Z) : ascii := ascii_of_nat (Z.to_nat cp).

(** The six bits that a continuation byte carries. *)
Definition continuation (c : ascii) : option Z :=
  let b := byte c in
  if (128 <=? b) && (b <? 192) then Some (b - 128) else None.

(** The code point of a sequence of two, three or four bytes; overlong
    forms, surrogates and values above U+10FFFF are no code points. *)
Definition scalar2 (b0 x1 : Z) : option Z :=
  if (194 <=? b0) && (b0 <? 224) then Some ((b0 - 192) * 64 + x1) else None.

Definition scalar3 (b0 x1 x2 : Z) : option Z :=
  let cp := (b0 - 224) * 4096 + x1 * 64 + x2 in
  if (224 <=? b0) && (b0 <? 240) && (0x800 <=? cp)
     && negb ((0xD800 <=? cp) && (cp <? 0xE000))
  then Some cp else None.

Definition scalar4 (b0 x1 x2 x3 : Z) : option Z :=
  let cp := (b0 - 240) * 262144 + x1 * 4096 + x2 * 64 + x3 in
  if (240 <=? b0) && (b0 <? 245) && (0x10000 <=? cp) && (cp <? 0x110000)
  then Some cp else None.

(** The code points of a str. *)
Fixpoint code_points (s : string) : list Z :=
  match s with
  | EmptyString => []
  | String c0 t0 =>
      let b0 := byte c0 in
      let lone := b0 :: code_points t0 in
      if b0 <? 128 then lone
      else
        match t0 with
        | EmptyString => lone
        | String c1 t1 =>
            match continuation c1 with
            | None => lone
            | Some x1 =>
                match scalar2 b0 x1 with
                | Some cp => cp :: code_points t1
                | None =>
                    match t1 with
                    | EmptyString => lone
                    | String c2 t2 =>
                        match continuation c2 with
                        | None => lone
                        | Some x2 =>
                            match scalar3 b0 x1 x2 with
                            | Some cp => cp :: code_points t2
                            | None =>
                                match t2 with
                                | EmptyString => lone
                                | String c3 t3 =>
                                    match continuation c3 with
                                    | None => lone
                                    | Some x3 =>
                                        match scalar4 b0 x1 x2 x3 with
                                        | Some cp => cp :: code_points t3
                                        | None => lone
                                        end
                                    end
                                end
                            end
                        end
                    end
                end
            end
        end
  end.

(** The whitespace of Unicode from U+007F on. *)
Definition unicode_space (cp : Z) : bool :=
  existsb (Z.eqb cp)
    [0x85; 0xA0; 0x1680; 0x2028; 0x2029; 0x202F; 0x205F; 0x3000]
  || ((0x2000 <=? cp) && (cp <=? 0x200A)).

(** The digit zero of every set of decimal digits of Unicode 14.0 (the
    table of CPython 3.11) from U+007F on; the ten digits of a set follow
    one another from its zero.  Later versions of Unicode add sets. *)
Definition decimal_zeros : list Z :=
  [0x660; 0x6f0; 0x7c0; 0x966; 0x9e6; 0xa66;
    0xae6; 0xb66; 0xbe6; 0xc66; 0xce6; 0xd66;
    0xde6; 0xe50; 0xed0; 0xf20; 0x1040; 0x1090;
    0x17e0; 0x1810; 0x1946; 0x19d0; 0x1a80; 0x1a90;
    0x1b50; 0x1bb0; 0x1c40; 0x1c50; 0xa620; 0xa8d0;
    0xa900; 0xa9d0; 0xa9f0; 0xaa50; 0xabf0; 0xff10;
    0x104a0; 0x10d30; 0x11066; 0x110f0; 0x11136; 0x111d0;
    0x112f0; 0x11450; 0x114d0; 0x11650; 0x116c0; 0x11730;
    0x118e0; 0x11950; 0x11c50; 0x11d50; 0x11da0; 0x16a60;
    0x16ac0; 0x16b50; 0x1d7ce; 0x1d7d8; 0x1d7e2; 0x1d7ec;
    0x1d7f6; 0x1e140; 0x1e2f0; 0x1e950; 0x1fbf0].

Definition unicode_decimal (cp : Z) : option Z :=
  match List.find (fun z => (z <=? cp) && (cp <=? z + 9)) decimal_zeros with
  | Some z => Some (cp - z)
  | None => None
  end.

(** What [int] does to a str before it reads it: a code point below U+007F
    stays, whitespace becomes a space, a decimal digit becomes the ASCII
    digit of its value, and the text ends in "?" at any other code point. *)
Fixpoint to_ascii (cps : list Z) : string :=
  match cps with
  | [] => EmptyString
  | cp :: rest =>
      if cp <? 127 then String (chr cp) (to_ascii rest)
      else if unicode_space cp then String " " (to_ascii rest)
      else
        match unicode_decimal cp with
        | Some d => String (chr (48 + d)) (to_ascii rest)
        | None => "?"
        end
  end.

(** *** [int(str)] in base 10

    On the text that [to_ascii] gives, leading and trailing whitespace is
    dropped, one sign is allowed, and the digits may be separated by single
    underscores.

    Interpreters from 3.11 on (and the later releases of 3.7 to 3.10) also
    refuse a str with more digits than a limit, 4300 unless it is set
    otherwise or switched off; [int_of_str] is the conversion without that
    limit.  Under the limit a longer numeral raises [ValueError], also when
    it only pads a short number with zeros, and its row is skipped.
    [loop_body_with] below is the loop for any conversion. *)
Definition is_space (c : ascii) : bool :=
  let n := nat_of_ascii c in
  ((9 <=? n) && (n <=? 13))%nat || Nat.eqb n 32.

Definition digit_of (c : ascii) : option Z :=
  let n := nat_of_ascii c in
  if ((48 <=? n) && (n <=? 57))%nat then Some (Z.of_nat n - 48) else None.

Fixpoint lstrip (s : string) : string :=
  match s with
  | String c t => if is_space c then lstrip t else s
  | EmptyString => s
  end.

Fixpoint all_space (s : string) : bool :=
  match s with
  | String c t => is_space c && all_space t
  | EmptyString => true
  end.

(** The digits after the first one: [acc] is the value read so far and
    [after_us] tells that the previous character was an underscore. *)
Fixpoint digits_tail (s : string) (acc : Z) (after_us : bool) : option Z :=
  match s with
  | EmptyString => if after_us then None else Some acc
  | String c t =>
      match digit_of c with
      | Some d => digits_tail t (10 * acc + d) false
      | None =>
          if after_us then None
          else if Ascii.eqb c "_" then digits_tail t acc true
          else if all_space s then Some acc
          else None
      end
  end.

Definition digits (s : string) : option Z :=
  match s with
  | String c t =>
      match digit_of c with
      | Some d => digits_tail t d false
      | None => None
      end
  | EmptyString => None
  end.

(** The reading of text that is ASCII already. *)
Definition int_of_ascii (s : string) : res Z :=
  let body := lstrip s in
  let '(neg, body) :=
    match body with
    | String "-" t => (true, t)
    | String "+" t => (false, t)
    | _ => (false, body)
    end in
  match digits body with
  | Some n => Ok (if neg then - n else n)
  | None => Raise ValueError
  end.

Definition int_of_str (s : string) : res Z :=
  int_of_ascii (to_ascii (code_points s)).

(** [int(v)] *)
Definition int (v : val) : res Z :=
  match v with
  | PNone => Raise TypeError
  | PBool b => Ok (if b then 1 else 0)
  | PInt n => Ok n
  | PFloat f => int_of_float f
  | PStr s => int_of_str s
  | PList _ => Raise TypeError
  | PDict _ => Raise TypeError
  end.

(** *** [str.lower]

    The ASCII capital letters become small and every other byte stays.  Of
    the letters outside ASCII only U+0130 and U+212A are lowered to text
    with an ASCII letter in it ("i" followed by U+0307, and "k"); neither
    completes one of the process names the classifier looks for. *)
Definition lower_char (c : ascii) : ascii :=
  let n := nat_of_ascii c in
  if ((65 <=? n) && (n <=? 90))%nat then ascii_of_nat (n + 32) else c.

Fixpoint lower (s : string) : string :=
  match s with
  | String c t => String (lower_char c) (lower t)
  | EmptyString => EmptyString
  end.

(** *** [needle in hay] on str *)
Fixpoint contains (needle hay : string) : bool :=
  if String.prefix needle hay then true
  else
    match hay with
    | String _ t => contains needle t
    | EmptyString => false
    end.

(** [f'{n}'] for an int. *)
Definition str_of_int (n : Z) : string :=
  NilEmpty.string_of_int (Z.to_int n).

(** [sep.join(l)] *)
Definition join (sep : string) (l : list string) : string :=
  String.concat sep l.

End Py.

(** The bind of [Py.res], for the [x ← m; k] notation. *)
#[global] Instance res_bind : MBind Py.res := fun A B k m => Py.bind m k.

(** ** The classifier *)

(** A row of the DataFrame, as [iterrows] yields it. *)
Abbreviation Row := (gmap string Py.val).

(** [row.get(key)] and [row.get(key, default)]. *)
Definition row_get (row : Row) (key : string) : Py.val :=
  default Py.PNone (row !! key).

Definition row_get_or (row : Row) (key : string) (dflt : Py.val) : Py.val :=
  default dflt (row !! key).

(** The dict literal [event_descriptions]. *)
Definition event_descriptions : gmap Z string :=
  list_to_map
    [ (4624, "Successful Logon");
      (4625, "Failed Logon");
      (4648, "Logon with Explicit Credentials");
      (4672, "Special Privileges Assigned");
      (4688, "Process Creation");
      (4689, "Process Exit");
      (4703, "User Right Adjusted");
      (4732, "Member Added to Security Group");
      (4733, "Member Removed from Security Group");
      (4656, "Object Handle Requested");
      (4663, "Object Access Attempt");
      (4608, "Windows Startup");
      (4609, "Windows Shutdown");
      (4616, "System Time Change");
      (4740, "Account Locked Out");
      (4768, "Kerberos Ticket Requested");
      (4769, "Kerberos Ticket Granted");
      (4776, "Credential Validation");
      (5140, "Network Share Object Accessed");
      (5156, "Connection Allowed");
      (5157, "Connection Denied");
      (7036, "Service Started/Stopped");
      (1102, "Security Log Cleared");
      (4720, "User Account Created");
      (4726, "User Account Deleted");
      (4728, "Member Added to Global Group");
      (4735, "Security Group Changed");
      (4798, "User Group Membership Enumerated") ].

(** The three list literals of the [if]/[elif]/[elif] chain. *)
Definition high_risk_ids : list Z :=
  [4625; 4648; 4720; 4726; 1102; 4740; 4672].

Definition medium_risk_ids : list Z :=
  [4688; 4703; 4656; 4768; 4769; 4732; 4735].

Definition low_risk_ids : list Z :=
  [4624; 4689; 5140; 5156; 7036].

Definition suspicious_processes : list string :=
  ["powershell"; "cmd"; "wscript"; "cscript"; "mshta"; "rundll32"].

Definition remote_logon_types : list string := ["3"; "10"].

(** [event_id in ids] on a list of ints. *)
Definition id_in (event_id : Z) (ids : list Z) : bool :=
  existsb (Z.eqb event_id) ids.

(** [event_descriptions.get(event_id, f'Unknown ({event_id})')], the name used
    in the tier reasons. *)
Definition reason_name (event_id : Z) : string :=
  default ("Unknown (" +:+ Py.str_of_int event_id +:+ ")")
          (event_descriptions !! event_id).

(** [event_descriptions.get(event_id, f'Event {event_id}')], the name stored
    in the result. *)
Definition describe (event_id : Z) : string :=
  default ("Event " +:+ Py.str_of_int event_id) (event_descriptions !! event_id).

(** The two locals that the body updates: [suspicious_score] and [reasons]. *)
Definition scoring : Type := Z * list string.

(** [suspicious_score += pts; reasons.append(reason)] *)
Definition add_reason (pts : Z) (reason : string) (st : scoring) : scoring :=
  (fst st + pts, snd st ++ [reason]).

(** The [if]/[elif]/[elif] chain on the event id. *)
Definition tier_step (event_id : Z) (st : scoring) : scoring :=
  if id_in event_id high_risk_ids then
    add_reason 3 ("High-risk event: " +:+ reason_name event_id) st
  else if id_in event_id medium_risk_ids then
    add_reason 2 ("Medium-risk event: " +:+ reason_name event_id) st
  else if id_in event_id low_risk_ids then
    add_reason 1 ("Info event: " +:+ reason_name event_id) st
  else st.

(** [any(proc in process_name.lower() for proc in suspicious_processes)] *)
Definition suspicious_process_name (process_name : string) : bool :=
  existsb (fun proc => Py.contains proc (Py.lower process_name))
          suspicious_processes.

(** The checks on [New_Process_Name] and [Logon_Type].  The match on
    [Py.PStr] in the first branch is the [isinstance(process_name, str)]
    test.  In the second branch [logon_type in ['3', '10']] compares with
    [==], and a cell that is not a str is equal to no str; the [logon_type]
    formatted into the reason is therefore a str, printed as it is. *)
Definition heuristic_step (event_id : Z) (row : Row) (st : scoring) : scoring :=
  if event_id =? 4688 then
    match row_get_or row "New_Process_Name" (Py.PStr "") with
    | Py.PStr process_name =>
        if suspicious_process_name process_name then
          add_reason 2 ("Suspicious process: " +:+ process_name) st
        else st
    | _ => st
    end
  else if event_id =? 4624 then
    match row_get row "Logon_Type" with
    | Py.PStr logon_type =>
        if existsb (String.eqb logon_type) remote_logon_types then
          add_reason 1 ("Remote logon (Type " +:+ logon_type +:+ ")") st
        else st
    | _ => st
    end
  else st.

(** The score and the reasons of a record whose event id is [event_id]. *)
Definition score_row (event_id : Z) (row : Row) : scoring :=
  heuristic_step event_id row (tier_step event_id (0, [])).

(** One entry of [suspicious_events]; [reasons] holds the joined text. *)
Record Result : Type := mkResult {
  timestamp : Py.val;
  event_id : Z;
  event_name : string;
  computer : Py.val;
  user : Py.val;
  suspicious_score : Z;
  reasons : string;
  raw_data : option Row
}.

(** The dict appended for a record that scored; [row.to_dict()] is the row. *)
Definition make_result (id : Z) (row : Row) (st : scoring) : Result :=
  {| timestamp := row_get row "_time";
     event_id := id;
     event_name := describe id;
     computer := row_get_or row "ComputerName" (Py.PStr "Unknown");
     user := row_get_or row "user"
               (row_get_or row "Account_Name" (Py.PStr "Unknown"));
     suspicious_score := fst st;
     reasons :=
       match snd st with
       | [] => "Generic suspicious"
       | _ :: _ => Py.join "; " (snd st)
       end;
     raw_data := if 3 <=? fst st then Some row else None |}.

(** The body of the [for] loop: [suspicious_events] is the list being built;
    both [continue] statements leave it as it is, and the bare [except]
    catches whatever [int] raises. *)
Definition loop_body (row : Row) (suspicious_events : list Result)
  : Py.res (list Result) :=
  let cell := row_get row "EventCode" in
  if negb (Py.truthy cell) then Py.Ok suspicious_events
  else
    match Py.int cell with
    | Py.Raise _ => Py.Ok suspicious_events
    | Py.Ok id =>
        let st := score_row id row in
        if 0 <? fst st then
          Py.Ok (suspicious_events ++ [make_result id row st])
        else Py.Ok suspicious_events
    end.

(** The loop over [df.iterrows()]. *)
Fixpoint iterrows_loop (rows : list Row) (suspicious_events : list Result)
  : Py.res (list Result) :=
  match rows with
  | [] => Py.Ok suspicious_events
  | row :: rest =>
      suspicious_events ← loop_body row suspicious_events;
      iterrows_loop rest suspicious_events
  end.

Definition analyze_suspicious_windows_events (df : list Row)
  : Py.res (list Result) :=
  iterrows_loop df [].

(** The loop with the conversion left open.  [int] stands for the [int()]
    of the interpreter that runs the program: its table of decimal digits
    grows with the version of Unicode, and its limit on the number of digits
    is a setting.  With [Py.int] these are [loop_body] and
    [iterrows_loop]. *)
Definition loop_body_with (int : Py.val -> Py.res Z)
    (row : Row) (suspicious_events : list Result) : Py.res (list Result) :=
  let cell := row_get row "EventCode" in
  if negb (Py.truthy cell) then Py.Ok suspicious_events
  else
    match int cell with
    | Py.Raise _ => Py.Ok suspicious_events
    | Py.Ok id =>
        let st := score_row id row in
        if 0 <? fst st then
          Py.Ok (suspicious_events ++ [make_result id row st])
        else Py.Ok suspicious_events
    end.

Fixpoint iterrows_loop_with (int : Py.val -> Py.res Z)
    (rows : list Row) (suspicious_events : list Result)
  : Py.res (list Result) :=
  match rows with
  | [] => Py.Ok suspicious_events
  | row :: rest =>
      suspicious_events ← loop_body_with int row suspicious_events;
      iterrows_loop_with int rest suspicious_events
  end.

(** The integer event id under which the body scores a row: the cell passes
    [if not event_id] and [int(event_id)] returns. *)
Definition event_id_of (row : Row) : option Z :=
  let cell := row_get row "EventCode" in
  if Py.truthy cell then
    match Py.int cell with
    | Py.Ok id => Some id
    | Py.Raise _ => None
    end
  else None.

(** What [loop_body] appends for one row, on its own. *)
Definition results_of (row : Row) : list Result :=
  match loop_body row [] with
  | Py.Ok out => out
  | Py.Raise _ => []
  end.

(** The columns of a result that the classifier computes; the others are
    copies of cells of the row. *)
Definition verdict (r : Result) : Z * string * Z * string :=
  (event_id r, event_name r, suspicious_score r, reasons r).

(** ** The summary and the charts

    [print_suspicious_summary] and [create_visualizations] read the frame
    [pd.DataFrame(suspicious_events)]; its rows are the results, in order.
    The definitions below are the tables these two functions compute from it
    before they print or draw. *)

Section Counting.
Context {K : Type} `{EqDecision K} (le : K -> K -> bool).

(** The number of rows of a column that hold [k]. *)
Definition count_rows (k : K) (col : list K) : nat :=
  length (filter (fun x => x = k) col).

(** [groupby(keys).size()] and [value_counts().sort_index()]: the distinct
    keys in ascending order, each with the number of rows that hold it. *)
Definition size_by_key (col : list K) : list (K * nat) :=
  (fun k => (k, count_rows k col))
    <$> merge_sort (fun x y => Is_true (le x y)) (remove_dups col).
End Counting.

(** The order of the pairs [(event_id, event_name)]. *)
Definition key_leb (a b : Z * string) : bool :=
  (a.1 <? b.1) || ((a.1 =? b.1) && String.leb a.2 b.2).

(** [suspicious_df['event_id'].nunique()] *)
Definition unique_event_types (suspicious_df : list Result) : nat :=
  length (remove_dups (event_id <$> suspicious_df)).

(** [suspicious_df.groupby(['event_id', 'event_name']).size()], the table
    that is then ranked by count. *)
Definition event_counts (suspicious_df : list Result)
  : list (Z * string * nat) :=
  size_by_key key_leb ((fun r => (event_id r, event_name r)) <$> suspicious_df).

(** [suspicious_df[suspicious_df['suspicious_score'] >= 3]] *)
Definition high_risk (suspicious_df : list Result) : list Result :=
  filter (fun r => 3 <= suspicious_score r) suspicious_df.

(** [suspicious_df['suspicious_score'].value_counts().sort_index()] *)
Definition risk_distribution (suspicious_df : list Result) : list (Z * nat) :=
  size_by_key Z.leb (suspicious_score <$> suspicious_df).

(** ['High' if i>=3 else 'Medium' if i>=2 else 'Low'], the name of a level
    in the legend of the chart. *)
Definition level_name (i : Z) : string :=
  if 3 <=? i then "High" else if 2 <=? i then "Medium" else "Low".

(** [colors[:len(risk_distribution)]] *)
Definition pie_colors (suspicious_df : list Result) : list string :=
  take (length (risk_distribution suspicious_df)) ["green"; "orange"; "red"].

(** Sample rows. *)
Definition failed_logon_row : Row :=
  <[ "user" := Py.PStr "admin" ]>
    (<[ "ComputerName" := Py.PStr "WIN-DC01" ]>
       {[ "EventCode" := Py.PInt 4625 ]}).

Definition log_cleared_row : Row := {[ "EventCode" := Py.PStr "1102" ]}.

Definition cmd_row : Row :=
  <[ "New_Process_Name" := Py.PStr "C:/Windows/System32/CMD.EXE" ]>
    {[ "EventCode" := Py.PStr "4688" ]}.

Definition remote_logon_row : Row :=
  <[ "Logon_Type" := Py.PStr "10" ]> {[ "EventCode" := Py.PStr "4624" ]}.

Definition int_logon_type_row : Row :=
  <[ "Logon_Type" := Py.PInt 3 ]> {[ "EventCode" := Py.PStr "4624" ]}.

Definition decimal_id_row : Row := {[ "EventCode" := Py.PStr "4625.0" ]}.

Definition unknown_id_row : Row := {[ "EventCode" := Py.PInt 9999 ]}.

(** Ids written with a no-break space (U+00A0, the bytes 194 160) before
    the digits, and in fullwidth digits. *)
Definition nbsp_id_row : Row :=
  {[ "EventCode" := Py.PStr (String "194" (String "160" "4625")) ]}.

Definition fullwidth_id_row : Row := {[ "EventCode" := Py.PStr "４６２５" ]}.

Definition explicit_logon_row : Row :=
  <[ "Logon_Type" := Py.PStr "3" ]>
    (<[ "New_Process_Name" := Py.PStr "powershell.exe" ]>
       {[ "EventCode" := Py.PInt 4648 ]}).

Definition notepad_row : Row :=
  <[ "New_Process_Name" := Py.PStr "C:/Windows/notepad.exe" ]>
    {[ "EventCode" := Py.PInt 4688 ]}.

Definition local_logon_row : Row :=
  <[ "Logon_Type" := Py.PStr "2" ]> {[ "EventCode" := Py.PInt 4624 ]}.

(** A frame whose results take all four scores. *)
Definition mixed_frame : list Row :=
  [ local_logon_row; cmd_row; unknown_id_row; failed_logon_row;
    notepad_row; remote_logon_row; decimal_id_row; failed_logon_row ].

(** No check of [heuristic_step] adds to the score of the row. *)
Definition no_heuristic (id : Z) (row : Row) : Prop :=
  forall st : scoring, heuristic_step id row st = st.

(** The tier branch of value [pts] and prefix [label] decides the record: its
    one reason is [label] followed by the name the table gives the id, and
    the body appends a result with that score and that reason. *)
Definition tier_outcome (row : Row) (id pts : Z) (label : string) : Prop :=
  exists name : string,
    event_descriptions !! id = Some name /\
    score_row id row = (pts, [label +:+ name]) /\
    forall acc : list Result,
      exists r : Result,
        loop_body row acc = Py.Ok (acc ++ [r]) /\
        suspicious_score r = pts /\
        reasons r = label +:+ name.

(** ** Auxiliary facts *)

(** Splits [In id [a; b; ...]] into one goal per literal. *)
Ltac each_id H :=
  repeat (destruct H as [H | H]; [symmetry in H; subst | ]); try contradiction.

Lemma id_in_true (id : Z) (ids : list Z) :
  id_in id ids = true <-> In id ids.
Proof.
  unfold id_in. rewrite existsb_exists. split.
  - intros [x [Hx Heq]]. apply Z.eqb_eq in Heq. now subst.
  - intros Hin. exists id. split; [assumption | apply Z.eqb_refl].
Qed.

Lemma id_in_false (id : Z) (ids : list Z) :
  id_in id ids = false <-> ~ In id ids.
Proof.
  rewrite <- id_in_true. destruct (id_in id ids); split; congruence.
Qed.

(** The body in terms of [event_id_of]. *)
Lemma loop_body_spec (row : Row) (acc : list Result) :
  loop_body row acc =
  Py.Ok
    match event_id_of row with
    | Some id =>
        if 0 <? fst (score_row id row)
        then acc ++ [make_result id row (score_row id row)]
        else acc
    | None => acc
    end.
Proof.
  unfold loop_body, event_id_of.
  destruct (Py.truthy (row_get row "EventCode")); [ | reflexivity].
  destruct (Py.int (row_get row "EventCode")) as [id | e]; [ | reflexivity].
  cbv zeta. now destruct (0 <? fst (score_row id row)).
Qed.

Lemma snoc_neq {A : Type} (l : list A) (x : A) : l ++ [x] <> l.
Proof.
  intros H. apply (f_equal (@List.length A)) in H.
  rewrite length_app in H. simpl in H. lia.
Qed.

(** What an appended result tells about the row. *)
Lemma loop_body_emit_inv (row : Row) (acc : list Result) (r : Result) :
  loop_body row acc = Py.Ok (acc ++ [r]) ->
  exists id : Z,
    event_id_of row = Some id /\
    0 < fst (score_row id row) /\
    r = make_result id row (score_row id row).
Proof.
  rewrite loop_body_spec. intros H. injection H as H.
  destruct (event_id_of row) as [id | ].
  - exists id. destruct (0 <? fst (score_row id row)) eqn:Hpos.
    + apply app_inj_tail in H as [_ H].
      apply Z.ltb_lt in Hpos. now subst.
    + symmetry in H. now apply snoc_neq in H.
  - symmetry in H. now apply snoc_neq in H.
Qed.

Lemma loop_body_emit (row : Row) (id : Z) (acc : list Result) :
  event_id_of row = Some id ->
  0 < fst (score_row id row) ->
  loop_body row acc = Py.Ok (acc ++ [make_result id row (score_row id row)]).
Proof.
  intros Hid Hpos. rewrite loop_body_spec, Hid.
  apply Z.ltb_lt in Hpos. now rewrite Hpos.
Qed.

Lemma loop_body_no_emit (row : Row) (id : Z) (acc : list Result) :
  event_id_of row = Some id ->
  fst (score_row id row) <= 0 ->
  loop_body row acc = Py.Ok acc.
Proof.
  intros Hid Hle. rewrite loop_body_spec, Hid.
  apply Z.ltb_ge in Hle. now rewrite Hle.
Qed.

(** With [Py.int] the open loop is the loop. *)
Lemma loop_body_with_int (row : Row) (acc : list Result) :
  loop_body_with Py.int row acc = loop_body row acc.
Proof. reflexivity. Qed.

Lemma iterrows_loop_with_int (rows : list Row) :
  forall acc : list Result,
    iterrows_loop_with Py.int rows acc = iterrows_loop rows acc.
Proof.
  induction rows as [ | row rest IH]; intros acc; [reflexivity | ].
  cbn [iterrows_loop_with iterrows_loop]. rewrite loop_body_with_int.
  destruct (loop_body row acc) as [acc' | e]; [apply IH | reflexivity].
Qed.

(** The checks of [heuristic_step] look at two ids only. *)
Lemma heuristic_step_other (id : Z) (row : Row) (st : scoring) :
  id <> 4688 -> id <> 4624 -> heuristic_step id row st = st.
Proof.
  intros H1 H2. unfold heuristic_step.
  apply Z.eqb_neq in H1, H2. now rewrite H1, H2.
Qed.

(** An id outside the three lists scores nothing. *)
Lemma score_row_untiered (id : Z) (row : Row) :
  id_in id (high_risk_ids ++ medium_risk_ids ++ low_risk_ids) = false ->
  score_row id row = (0, []).
Proof.
  intros H. apply id_in_false in H.
  assert (Hh : id_in id high_risk_ids = false).
  { apply id_in_false. intros Hin. apply H. apply in_or_app. now left. }
  assert (Hm : id_in id medium_risk_ids = false).
  { apply id_in_false. intros Hin. apply H.
    apply in_or_app. right. apply in_or_app. now left. }
  assert (Hl : id_in id low_risk_ids = false).
  { apply id_in_false. intros Hin. apply H.
    apply in_or_app. right. apply in_or_app. now right. }
  unfold score_row, tier_step. rewrite Hh, Hm, Hl.
  apply heuristic_step_other; intros ->; apply H; vm_compute; tauto.
Qed.

(** Every id of the three lists has a name in the table. *)
Lemma tiered_id_described (id : Z) :
  id_in id (high_risk_ids ++ medium_risk_ids ++ low_risk_ids) = true ->
  is_Some (event_descriptions !! id).
Proof.
  intros H. apply id_in_true in H. cbn in H.
  each_id H; vm_compute; eauto.
Qed.

(** A positive score comes from an id of the three lists. *)
Lemma positive_score_tiered (id : Z) (row : Row) :
  0 < fst (score_row id row) ->
  id_in id (high_risk_ids ++ medium_risk_ids ++ low_risk_ids) = true.
Proof.
  intros Hpos.
  destruct (id_in id (high_risk_ids ++ medium_risk_ids ++ low_risk_ids))
    eqn:Hin; [reflexivity | ].
  rewrite (score_row_untiered _ _ Hin) in Hpos. simpl in Hpos. lia.
Qed.

(** ** Worked records *)

Example failed_logon_record :
  analyze_suspicious_windows_events [failed_logon_row]
  = Py.Ok
      [ {| timestamp := Py.PNone;
           event_id := 4625;
           event_name := "Failed Logon";
           computer := Py.PStr "WIN-DC01";
           user := Py.PStr "admin";
           suspicious_score := 3;
           reasons := "High-risk event: Failed Logon";
           raw_data := Some failed_logon_row |} ].
Proof. reflexivity. Qed.

Example process_creation_record :
  (fun out => match out with
              | Py.Ok [r] => Some (suspicious_score r, reasons r)
              | _ => None
              end)
    (analyze_suspicious_windows_events [cmd_row])
  = Some (4, "Medium-risk event: Process Creation; "
             +:+ "Suspicious process: C:/Windows/System32/CMD.EXE").
Proof. reflexivity. Qed.

Example unknown_id_record :
  analyze_suspicious_windows_events [unknown_id_row] = Py.Ok [].
Proof. reflexivity. Qed.

Example unreadable_id_records :
  analyze_suspicious_windows_events
    [ {[ "ComputerName" := Py.PStr "WIN-DC01" ]};
      {[ "EventCode" := Py.PFloat S754_nan ]};
      {[ "EventCode" := Py.PStr "n/a" ]};
      {[ "EventCode" := Py.PList [Py.PInt 4625] ]};
      {[ "EventCode" := Py.PStr "" ]} ]
  = Py.Ok [].
Proof. reflexivity. Qed.

Example unicode_id_records :
  (fun out => match out with
              | Py.Ok l => Some (verdict <$> l)
              | Py.Raise _ => None
              end)
    (analyze_suspicious_windows_events [nbsp_id_row; fullwidth_id_row])
  = Some [ (4625, "Failed Logon", 3, "High-risk event: Failed Logon");
           (4625, "Failed Logon", 3, "High-risk event: Failed Logon") ].
Proof. reflexivity. Qed.

Example int_of_text :
  map Py.int_of_str
    [ " 4625 "; "+4_625"; "-007"; "٤٦٢٥"; "4625.0"; "4__6"; "46_"; "+ 4";
      String "028" "4625"; "" ]
  = [ Py.Ok 4625; Py.Ok 4625; Py.Ok (-7); Py.Ok 4625;
      Py.Raise Py.ValueError; Py.Raise Py.ValueError; Py.Raise Py.ValueError;
      Py.Raise Py.ValueError; Py.Raise Py.ValueError; Py.Raise Py.ValueError ].
Proof. reflexivity. Qed.

Example float_id_record :
  event_id_of {[ "EventCode" := Py.PFloat (S754_finite false 4625 0) ]}
  = Some 4625.
Proof. reflexivity. Qed.

Example logon_type_cells :
  map (fun row => score_row 4624 row)
    [ <[ "Logon_Type" := Py.PStr "3" ]> {[ "EventCode" := Py.PInt 4624 ]};
      <[ "Logon_Type" := Py.PInt 3 ]> {[ "EventCode" := Py.PInt 4624 ]};
      <[ "Logon_Type" := Py.PInt 10 ]> {[ "EventCode" := Py.PInt 4624 ]};
      <[ "Logon_Type" := Py.PStr "2" ]> {[ "EventCode" := Py.PInt 4624 ]};
      {[ "EventCode" := Py.PInt 4624 ]} ]
  = [ (2, ["Info event: Successful Logon"; "Remote logon (Type 3)"]);
      (1, ["Info event: Successful Logon"]);
      (1, ["Info event: Successful Logon"]);
      (1, ["Info event: Successful Logon"]);
      (1, ["Info event: Successful Logon"]) ].
Proof. reflexivity. Qed.

Example process_name_cells :
  map (fun cell =>
         fst (score_row 4688
                (<[ "New_Process_Name" := cell ]>
                   {[ "EventCode" := Py.PInt 4688 ]})))
    [ Py.PStr "C:/Windows/System32/notepad.exe";
      Py.PStr "C:/Windows/SysWOW64/RunDLL32.exe";
      Py.PList [Py.PStr "powershell.exe"];
      Py.PFloat S754_nan ]
  = [2; 4; 2; 2].
Proof. reflexivity. Qed.

(** ** The claims *)

(** C1. A record whose event id is in a tier list and for which no
    field-specific check fires gets that tier's fixed score (3, 2 or 1) and
    exactly one reason, "High-risk event: name", "Medium-risk event: name" or
    "Info event: name", where the name is the table's; the lists are tried in
    the order high, medium, low and the first that contains the id decides. *)
Theorem tier_base_score (row : Row) (id : Z) :
  event_id_of row = Some id ->
  no_heuristic id row ->
  (id_in id high_risk_ids = true ->
   tier_outcome row id 3 "High-risk event: ") /\
  (id_in id high_risk_ids = false ->
   id_in id medium_risk_ids = true ->
   tier_outcome row id 2 "Medium-risk event: ") /\
  (id_in id high_risk_ids = false ->
   id_in id medium_risk_ids = false ->
   id_in id low_risk_ids = true ->
   tier_outcome row id 1 "Info event: ").
Proof.
  intros Hid Hno.
  assert (Hout : forall pts label name,
             event_descriptions !! id = Some name ->
             tier_step id (0, []) = (pts, [label +:+ name]) ->
             0 < pts ->
             tier_outcome row id pts label).
  { intros pts label name Hname Htier Hpos.
    assert (Hscore : score_row id row = (pts, [label +:+ name])).
    { unfold score_row. now rewrite Hno. }
    exists name. repeat split; try assumption.
    intros acc. eexists. split.
    - apply loop_body_emit; [exact Hid | now rewrite Hscore].
    - rewrite Hscore. split; reflexivity. }
  repeat split.
  - intros Hh. apply id_in_true in Hh. cbn in Hh.
    each_id Hh; eapply Hout; try reflexivity; lia.
  - intros _ Hm. apply id_in_true in Hm. cbn in Hm.
    each_id Hm; eapply Hout; try reflexivity; lia.
  - intros _ _ Hl. apply id_in_true in Hl. cbn in Hl.
    each_id Hl; eapply Hout; try reflexivity; lia.
Qed.

Lemma tier_base_score_witness :
  tier_outcome log_cleared_row 1102 3 "High-risk event: ".
Proof.
  destruct (tier_base_score log_cleared_row 1102) as [Hhigh _].
  - reflexivity.
  - intros st. reflexivity.
  - apply Hhigh. reflexivity.
Defined.

(** C2. An appended result carries the row in [raw_data] exactly when its
    score is at least 3; with a score of 1 or 2, [raw_data] is [None]. *)
Theorem raw_data_iff_high_score
    (row : Row) (acc : list Result) (r : Result) :
  loop_body row acc = Py.Ok (acc ++ [r]) ->
  (raw_data r = Some row <-> 3 <= suspicious_score r) /\
  (suspicious_score r = 1 \/ suspicious_score r = 2 -> raw_data r = None).
Proof.
  intros H. apply loop_body_emit_inv in H as (id & _ & _ & ->).
  unfold make_result; cbn [raw_data suspicious_score].
  destruct (Z.leb_spec 3 (fst (score_row id row))) as [Hge | Hlt].
  - split; [tauto | lia].
  - split; [ | reflexivity]. split; [discriminate | lia].
Qed.

Lemma raw_data_iff_high_score_witness :
  raw_data (make_result 4688 cmd_row (score_row 4688 cmd_row)) = Some cmd_row
  <-> 3 <= suspicious_score (make_result 4688 cmd_row (score_row 4688 cmd_row)).
Proof.
  apply (raw_data_iff_high_score cmd_row []). reflexivity.
Defined.

(** C3. For a process-creation record (4688) whose [New_Process_Name] is a
    str that, lowered, contains one of the listed binary names, the check
    adds 2 and the reason "Suspicious process: name" to the medium tier's 2:
    the score is 4 and there are two reasons. *)
Theorem suspicious_process_adds_two
    (row : Row) (process_name proc : string) :
  event_id_of row = Some 4688 ->
  row !! "New_Process_Name" = Some (Py.PStr process_name) ->
  In proc suspicious_processes ->
  Py.contains proc (Py.lower process_name) = true ->
  tier_step 4688 (0, []) = (2, ["Medium-risk event: Process Creation"]) /\
  (forall st : scoring,
     heuristic_step 4688 row st =
     add_reason 2 ("Suspicious process: " +:+ process_name) st) /\
  score_row 4688 row =
    (4, ["Medium-risk event: Process Creation";
         "Suspicious process: " +:+ process_name]) /\
  forall acc : list Result,
    exists r : Result,
      loop_body row acc = Py.Ok (acc ++ [r]) /\
      suspicious_score r = 4 /\
      reasons r =
        "Medium-risk event: Process Creation; Suspicious process: "
        +:+ process_name.
Proof.
  intros Hid Hname Hin Hsub.
  assert (Hsusp : suspicious_process_name process_name = true).
  { unfold suspicious_process_name. apply existsb_exists.
    exists proc. now split. }
  assert (Hheur : forall st : scoring,
             heuristic_step 4688 row st =
             add_reason 2 ("Suspicious process: " +:+ process_name) st).
  { intros st. unfold heuristic_step, row_get_or.
    rewrite Hname. change (4688 =? 4688) with true.
    cbv beta iota delta [default from_option id]. now rewrite Hsusp. }
  assert (Hscore : score_row 4688 row =
                   (4, ["Medium-risk event: Process Creation";
                        "Suspicious process: " +:+ process_name])).
  { unfold score_row. rewrite Hheur. reflexivity. }
  split; [reflexivity | ]. split; [exact Hheur | ]. split; [exact Hscore | ].
  intros acc. eexists. split.
  - apply loop_body_emit; [exact Hid | rewrite Hscore; simpl; lia].
  - rewrite Hscore. split; reflexivity.
Qed.

Lemma suspicious_process_adds_two_witness :
  score_row 4688 cmd_row =
    (4, ["Medium-risk event: Process Creation";
         "Suspicious process: C:/Windows/System32/CMD.EXE"]).
Proof.
  apply (suspicious_process_adds_two
           cmd_row "C:/Windows/System32/CMD.EXE" "cmd").
  - reflexivity.
  - reflexivity.
  - simpl. tauto.
  - reflexivity.
Defined.

(** C4. For a successful-logon record (4624) whose [Logon_Type] is the str
    "3" or "10", the check adds 1 and the reason "Remote logon (Type t)" to
    the low tier's 1: the score is 2. *)
Theorem remote_logon_adds_one (row : Row) (logon_type : string) :
  event_id_of row = Some 4624 ->
  row !! "Logon_Type" = Some (Py.PStr logon_type) ->
  logon_type = "3" \/ logon_type = "10" ->
  tier_step 4624 (0, []) = (1, ["Info event: Successful Logon"]) /\
  (forall st : scoring,
     heuristic_step 4624 row st =
     add_reason 1 ("Remote logon (Type " +:+ logon_type +:+ ")") st) /\
  score_row 4624 row =
    (2, ["Info event: Successful Logon";
         "Remote logon (Type " +:+ logon_type +:+ ")"]) /\
  forall acc : list Result,
    exists r : Result,
      loop_body row acc = Py.Ok (acc ++ [r]) /\
      suspicious_score r = 2 /\
      reasons r =
        "Info event: Successful Logon; Remote logon (Type "
        +:+ logon_type +:+ ")".
Proof.
  intros Hid Htype Hval.
  assert (Hheur : forall st : scoring,
             heuristic_step 4624 row st =
             add_reason 1 ("Remote logon (Type " +:+ logon_type +:+ ")") st).
  { intros st. unfold heuristic_step, row_get.
    rewrite Htype. destruct Hval as [-> | ->]; reflexivity. }
  assert (Hscore : score_row 4624 row =
                   (2, ["Info event: Successful Logon";
                        "Remote logon (Type " +:+ logon_type +:+ ")"])).
  { unfold score_row. rewrite Hheur. reflexivity. }
  split; [reflexivity | ]. split; [exact Hheur | ]. split; [exact Hscore | ].
  intros acc. eexists. split.
  - apply loop_body_emit; [exact Hid | rewrite Hscore; simpl; lia].
  - rewrite Hscore. split; reflexivity.
Qed.

Lemma remote_logon_adds_one_witness :
  score_row 4624 remote_logon_row =
    (2, ["Info event: Successful Logon"; "Remote logon (Type 10)"]).
Proof.
  apply (remote_logon_adds_one remote_logon_row "10").
  - reflexivity.
  - reflexivity.
  - right. reflexivity.
Defined.

(** C5. A record whose [EventCode] is absent, or holds a value that the
    conversion to an integer rejects, produces no result and no error: the
    body leaves the list as it is and the loop goes on with the next row.
    This holds whatever conversion [int] the interpreter has, and so for
    [Py.int], the conversion of [loop_body] and [iterrows_loop]. *)
Theorem unreadable_event_id_skipped
    (int : Py.val -> Py.res Z) (row : Row) (acc : list Result) :
  (row !! "EventCode" = None \/
   exists (v : Py.val) (e : Py.exn),
     row !! "EventCode" = Some v /\ int v = Py.Raise e) ->
  (loop_body_with int row acc = Py.Ok acc /\
   forall rest : list Row,
     iterrows_loop_with int (row :: rest) acc
     = iterrows_loop_with int rest acc) /\
  (int = Py.int ->
   loop_body row acc = Py.Ok acc /\
   forall rest : list Row,
     iterrows_loop (row :: rest) acc = iterrows_loop rest acc).
Proof.
  intros H.
  assert (Hskip : loop_body_with int row acc = Py.Ok acc).
  { unfold loop_body_with, row_get.
    destruct H as [-> | (v & e & -> & Hint)].
    - reflexivity.
    - cbv beta iota delta [default from_option id]. rewrite Hint.
      now destruct (Py.truthy v). }
  split.
  - split; [exact Hskip | ].
    intros rest. cbn [iterrows_loop_with]. now rewrite Hskip.
  - intros ->. rewrite loop_body_with_int in Hskip.
    split; [exact Hskip | ].
    intros rest. cbn [iterrows_loop]. now rewrite Hskip.
Qed.

Lemma unreadable_event_id_skipped_witness :
  loop_body decimal_id_row [] = Py.Ok [] /\
  forall rest : list Row,
    iterrows_loop (decimal_id_row :: rest) [] = iterrows_loop rest [].
Proof.
  destruct (unreadable_event_id_skipped Py.int decimal_id_row []) as [_ H].
  - right. exists (Py.PStr "4625.0"), Py.ValueError. split; reflexivity.
  - apply H. reflexivity.
Defined.

(** C6. For a record with a readable event id the body appends a result
    exactly when the computed score is greater than 0; an id outside the
    three tier lists (such as 9999) fires no check and appends nothing. *)
Theorem emitted_iff_positive_score
    (row : Row) (id : Z) (acc : list Result) :
  event_id_of row = Some id ->
  ((exists r : Result, loop_body row acc = Py.Ok (acc ++ [r])) <->
   0 < fst (score_row id row)) /\
  (0 < fst (score_row id row) ->
   loop_body row acc =
   Py.Ok (acc ++ [make_result id row (score_row id row)])) /\
  (fst (score_row id row) <= 0 -> loop_body row acc = Py.Ok acc) /\
  (id_in id (high_risk_ids ++ medium_risk_ids ++ low_risk_ids) = false ->
   no_heuristic id row /\ loop_body row acc = Py.Ok acc).
Proof.
  intros Hid. split; [ | split; [ | split]].
  - split.
    + intros [r Hr].
      apply loop_body_emit_inv in Hr as (id' & Hid' & Hpos & _).
      congruence.
    + intros Hpos. eexists. apply (loop_body_emit row id acc Hid Hpos).
  - apply (loop_body_emit row id acc Hid).
  - apply (loop_body_no_emit row id acc Hid).
  - intros Hout. split.
    + intros st. apply id_in_false in Hout.
      apply heuristic_step_other; intros ->; apply Hout; vm_compute; tauto.
    + apply (loop_body_no_emit row id acc Hid).
      rewrite (score_row_untiered id row Hout). simpl. lia.
Qed.

Lemma emitted_iff_positive_score_witness :
  loop_body unknown_id_row [] = Py.Ok [].
Proof.
  destruct (emitted_iff_positive_score unknown_id_row 9999 [])
    as (_ & _ & _ & Hout).
  - reflexivity.
  - apply Hout. reflexivity.
Defined.

(** C7. The three tier lists are pairwise disjoint: no event id is in two of
    them. *)
Theorem tier_lists_disjoint (id : Z) :
  id_in id high_risk_ids && id_in id medium_risk_ids = false /\
  id_in id high_risk_ids && id_in id low_risk_ids = false /\
  id_in id medium_risk_ids && id_in id low_risk_ids = false.
Proof.
  repeat split.
  - destruct (id_in id high_risk_ids) eqn:H; [ | reflexivity].
    apply id_in_true in H. cbn in H. each_id H; reflexivity.
  - destruct (id_in id high_risk_ids) eqn:H; [ | reflexivity].
    apply id_in_true in H. cbn in H. each_id H; reflexivity.
  - destruct (id_in id medium_risk_ids) eqn:H; [ | reflexivity].
    apply id_in_true in H. cbn in H. each_id H; reflexivity.
Qed.

(** The loop returns for every frame, with at most one result per row. *)
Lemma iterrows_loop_total (rows : list Row) :
  forall acc : list Result,
    exists out : list Result,
      iterrows_loop rows acc = Py.Ok (acc ++ out) /\
      (length out <= length rows)%nat.
Proof.
  induction rows as [ | row rest IH]; intros acc.
  - exists []. split; [now rewrite app_nil_r | reflexivity].
  - cbn [iterrows_loop]. rewrite loop_body_spec.
    change (Py.Ok ?x ≫= ?k) with (k x). cbv beta.
    destruct (event_id_of row) as [id | ].
    + destruct (0 <? fst (score_row id row)).
      * destruct (IH (acc ++ [make_result id row (score_row id row)]))
          as (out & Hout & Hlen).
        exists (make_result id row (score_row id row) :: out).
        split; [now rewrite Hout, <- app_assoc | simpl; lia].
      * destruct (IH acc) as (out & Hout & Hlen).
        exists out. split; [exact Hout | simpl; lia].
    + destruct (IH acc) as (out & Hout & Hlen).
      exists out. split; [exact Hout | simpl; lia].
Qed.

(** Every result of a frame is what the body appends for one of its rows. *)
Lemma iterrows_loop_results (rows : list Row) :
  forall acc out : list Result,
    iterrows_loop rows acc = Py.Ok out ->
    exists new : list Result,
      out = acc ++ new /\
      forall r : Result,
        In r new ->
        exists row : Row,
          In row rows /\
          forall acc' : list Result,
            loop_body row acc' = Py.Ok (acc' ++ [r]).
Proof.
  induction rows as [ | row rest IH]; intros acc out Hrun.
  - injection Hrun as <-. exists []. split; [now rewrite app_nil_r | ].
    intros r [].
  - cbn [iterrows_loop] in Hrun. rewrite loop_body_spec in Hrun.
    change (Py.Ok ?x ≫= ?k) with (k x) in Hrun. cbv beta in Hrun.
    assert (Hrest : forall new : list Result,
               out = acc ++ new ->
               (forall r, In r new -> exists row0,
                    In row0 rest /\
                    forall acc', loop_body row0 acc' = Py.Ok (acc' ++ [r])) ->
               exists new0, out = acc ++ new0 /\
                 forall r, In r new0 -> exists row0,
                     In row0 (row :: rest) /\
                     forall acc', loop_body row0 acc' = Py.Ok (acc' ++ [r])).
    { intros new Hout Hnew. exists new. split; [exact Hout | ].
      intros r Hr. destruct (Hnew r Hr) as (row0 & Hin & Hbody).
      exists row0. split; [now right | exact Hbody]. }
    destruct (event_id_of row) as [id | ] eqn:Hid;
      [destruct (0 <? fst (score_row id row)) eqn:Hpos | ].
    + apply IH in Hrun as (new & -> & Hnew).
      exists (make_result id row (score_row id row) :: new).
      split; [now rewrite <- app_assoc | ].
      intros r [<- | Hr].
      * exists row. split; [now left | ].
        intros acc'. apply loop_body_emit; [exact Hid | now apply Z.ltb_lt].
      * destruct (Hnew r Hr) as (row0 & Hin & Hbody).
        exists row0. split; [now right | exact Hbody].
    + apply IH in Hrun as (new & -> & Hnew).
      apply (Hrest new); [reflexivity | exact Hnew].
    + apply IH in Hrun as (new & -> & Hnew).
      apply (Hrest new); [reflexivity | exact Hnew].
Qed.

(** C8. The classification is total: for a row of any shape the body returns,
    either leaving the list as it is or appending one result, and never
    raises; so does the loop over a whole frame. *)
Theorem classification_total :
  (forall (row : Row) (acc : list Result),
     loop_body row acc = Py.Ok acc \/
     exists r : Result, loop_body row acc = Py.Ok (acc ++ [r])) /\
  (forall df : list Row,
     exists out : list Result,
       analyze_suspicious_windows_events df = Py.Ok out /\
       (length out <= length df)%nat).
Proof.
  split.
  - intros row acc. rewrite loop_body_spec.
    destruct (event_id_of row) as [id | ]; [ | now left].
    destruct (0 <? fst (score_row id row)); [right | now left].
    now eexists.
  - intros df. unfold analyze_suspicious_windows_events.
    destruct (iterrows_loop_total df []) as (out & Hout & Hlen).
    exists out. split; assumption.
Qed.

(** C9. The name of an appended result is the table's name for its id when
    the table has one and "Event id" otherwise; every id of the three tier
    lists is in the table, and the id of an appended result is one of them,
    so its name is the table's. *)
Theorem event_name_from_table
    (row : Row) (acc : list Result) (r : Result) :
  loop_body row acc = Py.Ok (acc ++ [r]) ->
  event_name r =
    match event_descriptions !! event_id r with
    | Some name => name
    | None => "Event " +:+ Py.str_of_int (event_id r)
    end /\
  (forall id : Z,
     In id (high_risk_ids ++ medium_risk_ids ++ low_risk_ids) ->
     is_Some (event_descriptions !! id)) /\
  In (event_id r) (high_risk_ids ++ medium_risk_ids ++ low_risk_ids) /\
  event_descriptions !! event_id r = Some (event_name r).
Proof.
  intros H. apply loop_body_emit_inv in H as (id & _ & Hpos & ->).
  cbn [event_name event_id make_result].
  pose proof (positive_score_tiered id row Hpos) as Htier.
  destruct (tiered_id_described id Htier) as [name Hname].
  split; [ | split; [ | split]].
  - unfold describe. now destruct (event_descriptions !! id).
  - intros id' Hin. apply tiered_id_described. now apply id_in_true.
  - now apply id_in_true.
  - unfold describe. now rewrite Hname.
Qed.

Lemma event_name_from_table_witness :
  event_name
    (make_result 4625 failed_logon_row (score_row 4625 failed_logon_row))
  = "Failed Logon".
Proof.
  destruct (event_name_from_table failed_logon_row []
              (make_result 4625 failed_logon_row
                 (score_row 4625 failed_logon_row)))
    as (Hname & _).
  - reflexivity.
  - exact Hname.
Defined.

(** C10. For a successful-logon record (4624) whose [Logon_Type] is not the
    str "3" and not the str "10" (an int 3 or 10, or no such field), the
    logon check adds nothing: the score stays 1 and the only reason is the
    tier's. *)
Theorem remote_logon_exact_strings (row : Row) :
  event_id_of row = Some 4624 ->
  row_get row "Logon_Type" <> Py.PStr "3" ->
  row_get row "Logon_Type" <> Py.PStr "10" ->
  no_heuristic 4624 row /\
  score_row 4624 row = (1, ["Info event: Successful Logon"]) /\
  forall acc : list Result,
    exists r : Result,
      loop_body row acc = Py.Ok (acc ++ [r]) /\
      suspicious_score r = 1 /\
      reasons r = "Info event: Successful Logon".
Proof.
  intros Hid H3 H10.
  assert (Hno : no_heuristic 4624 row).
  { intros st. unfold heuristic_step. change (4624 =? 4688) with false.
    change (4624 =? 4624) with true. cbv iota.
    destruct (row_get row "Logon_Type") as [ | | | | s | | ];
      try reflexivity.
    cbn [existsb remote_logon_types].
    destruct (String.eqb_spec s "3") as [-> | _]; [now elim H3 | ].
    destruct (String.eqb_spec s "10") as [-> | _]; [now elim H10 | ].
    reflexivity. }
  assert (Hscore : score_row 4624 row = (1, ["Info event: Successful Logon"])).
  { unfold score_row. now rewrite Hno. }
  split; [exact Hno | ]. split; [exact Hscore | ].
  intros acc. eexists. split.
  - apply loop_body_emit; [exact Hid | rewrite Hscore; simpl; lia].
  - rewrite Hscore. split; reflexivity.
Qed.

Lemma remote_logon_exact_strings_witness :
  score_row 4624 int_logon_type_row = (1, ["Info event: Successful Logon"]).
Proof.
  apply (remote_logon_exact_strings int_logon_type_row).
  - reflexivity.
  - discriminate.
  - discriminate.
Defined.

(** ** Further properties of the classifier *)

(** What the body appends, in terms of [event_id_of]. *)
Lemma results_of_spec (row : Row) :
  results_of row =
  match event_id_of row with
  | Some id =>
      if 0 <? fst (score_row id row)
      then [make_result id row (score_row id row)]
      else []
  | None => []
  end.
Proof.
  unfold results_of. rewrite loop_body_spec.
  destruct (event_id_of row) as [id | ]; [ | reflexivity].
  now destruct (0 <? fst (score_row id row)).
Qed.

Lemma loop_body_results_of (row : Row) (acc : list Result) :
  loop_body row acc = Py.Ok (acc ++ results_of row).
Proof.
  rewrite loop_body_spec, results_of_spec.
  destruct (event_id_of row) as [id | ]; [ | now rewrite app_nil_r].
  destruct (0 <? fst (score_row id row)); [reflexivity | now rewrite app_nil_r].
Qed.

Lemma in_results_of (row : Row) (r : Result) :
  In r (results_of row) ->
  exists id : Z,
    event_id_of row = Some id /\
    0 < fst (score_row id row) /\
    r = make_result id row (score_row id row).
Proof.
  rewrite results_of_spec.
  destruct (event_id_of row) as [id | ]; [ | intros []].
  destruct (0 <? fst (score_row id row)) eqn:Hpos; [ | intros []].
  intros [<- | []]. exists id. apply Z.ltb_lt in Hpos. now repeat split.
Qed.

(** The loop appends the results of the rows, row after row. *)
Lemma iterrows_loop_flat_map (rows : list Row) :
  forall acc : list Result,
    iterrows_loop rows acc = Py.Ok (acc ++ flat_map results_of rows).
Proof.
  induction rows as [ | row rest IH]; intros acc.
  - cbn. now rewrite app_nil_r.
  - cbn [iterrows_loop flat_map]. rewrite loop_body_results_of.
    change (Py.Ok ?x ≫= ?k) with (k x). cbv beta.
    now rewrite IH, <- app_assoc.
Qed.

Lemma analyze_flat_map (df : list Row) :
  analyze_suspicious_windows_events df = Py.Ok (flat_map results_of df).
Proof. apply (iterrows_loop_flat_map df []). Qed.

(** The results of a frame come from its rows. *)
Lemma analyze_result_inv (df : list Row) (out : list Result) (r : Result) :
  analyze_suspicious_windows_events df = Py.Ok out ->
  In r out ->
  exists (row : Row) (id : Z),
    In row df /\
    event_id_of row = Some id /\
    0 < fst (score_row id row) /\
    r = make_result id row (score_row id row).
Proof.
  rewrite analyze_flat_map. intros [= <-] Hin.
  apply in_flat_map in Hin as (row & Hrow & Hr).
  apply in_results_of in Hr as (id & Hid & Hpos & ->).
  exists row, id. now repeat split.
Qed.

(** When a check of [heuristic_step] fires, it is one of two. *)
Lemma heuristic_step_cases (id : Z) (row : Row) (st : scoring) :
  heuristic_step id row st = st \/
  (id = 4688 /\
   exists s : string,
     row !! "New_Process_Name" = Some (Py.PStr s) /\
     suspicious_process_name s = true /\
     heuristic_step id row st =
     add_reason 2 ("Suspicious process: " +:+ s) st) \/
  (id = 4624 /\
   exists t : string,
     row !! "Logon_Type" = Some (Py.PStr t) /\
     In t remote_logon_types /\
     heuristic_step id row st =
     add_reason 1 ("Remote logon (Type " +:+ t +:+ ")") st).
Proof.
  unfold heuristic_step.
  destruct (Z.eqb_spec id 4688) as [-> | Hp].
  - unfold row_get_or.
    destruct (row !! "New_Process_Name") as [[ | | | | s | | ] | ] eqn:Hcell;
      cbv beta iota delta [default from_option id]; try (now left).
    destruct (suspicious_process_name s) eqn:Hs; [ | now left].
    right. left. split; [reflexivity | ]. exists s. now repeat split.
  - destruct (Z.eqb_spec id 4624) as [-> | Hl]; [ | now left].
    unfold row_get.
    destruct (row !! "Logon_Type") as [[ | | | | t | | ] | ] eqn:Hcell;
      cbv beta iota delta [default from_option id]; try (now left).
    destruct (existsb (String.eqb t) remote_logon_types) eqn:Ht; [ | now left].
    right. right. split; [reflexivity | ]. exists t. split; [reflexivity | ].
    split; [ | reflexivity].
    apply existsb_exists in Ht as (t' & Hin & Heq).
    apply String.eqb_eq in Heq. now subst.
Qed.

(** The tier step on a fresh state, list by list. *)
Lemma tier_step_cases (id : Z) :
  (In id high_risk_ids /\
   tier_step id (0, []) = (3, ["High-risk event: " +:+ describe id])) \/
  (In id medium_risk_ids /\
   tier_step id (0, []) = (2, ["Medium-risk event: " +:+ describe id])) \/
  (In id low_risk_ids /\
   tier_step id (0, []) = (1, ["Info event: " +:+ describe id])) \/
  (~ In id (high_risk_ids ++ medium_risk_ids ++ low_risk_ids) /\
   tier_step id (0, []) = (0, [])).
Proof.
  unfold tier_step.
  destruct (id_in id high_risk_ids) eqn:Hh.
  { left. apply id_in_true in Hh. split; [exact Hh | ].
    cbn in Hh. each_id Hh; reflexivity. }
  destruct (id_in id medium_risk_ids) eqn:Hm.
  { right. left. apply id_in_true in Hm. split; [exact Hm | ].
    cbn in Hm. each_id Hm; reflexivity. }
  destruct (id_in id low_risk_ids) eqn:Hl.
  { right. right. left. apply id_in_true in Hl. split; [exact Hl | ].
    cbn in Hl. each_id Hl; reflexivity. }
  right. right. right. split; [ | reflexivity].
  apply id_in_false in Hh, Hm, Hl.
  intros Hin. apply in_app_or in Hin as [Hin | Hin]; [tauto | ].
  apply in_app_or in Hin as [Hin | Hin]; tauto.
Qed.

(** The process check fires on a str cell with a listed name. *)
Lemma process_check_fires (row : Row) (s : string) (st : scoring) :
  row !! "New_Process_Name" = Some (Py.PStr s) ->
  suspicious_process_name s = true ->
  heuristic_step 4688 row st = add_reason 2 ("Suspicious process: " +:+ s) st.
Proof.
  intros Hcell Hs. unfold heuristic_step, row_get_or. rewrite Hcell.
  change (4688 =? 4688) with true.
  cbv beta iota delta [default from_option id]. now rewrite Hs.
Qed.

(** The six ways a record is scored. *)
Lemma score_row_cases (id : Z) (row : Row) :
  (In id high_risk_ids /\
   score_row id row = (3, ["High-risk event: " +:+ describe id])) \/
  (In id medium_risk_ids /\
   score_row id row = (2, ["Medium-risk event: " +:+ describe id])) \/
  (id = 4688 /\
   exists s : string,
     row !! "New_Process_Name" = Some (Py.PStr s) /\
     suspicious_process_name s = true /\
     score_row id row =
     (4, ["Medium-risk event: " +:+ describe id;
          "Suspicious process: " +:+ s])) \/
  (In id low_risk_ids /\
   score_row id row = (1, ["Info event: " +:+ describe id])) \/
  (id = 4624 /\
   exists t : string,
     row !! "Logon_Type" = Some (Py.PStr t) /\
     In t remote_logon_types /\
     score_row id row =
     (2, ["Info event: " +:+ describe id;
          "Remote logon (Type " +:+ t +:+ ")"])) \/
  (~ In id (high_risk_ids ++ medium_risk_ids ++ low_risk_ids) /\
   score_row id row = (0, [])).
Proof.
  unfold score_row.
  destruct (tier_step_cases id) as [[Hin ->] | [[Hin ->] | [[Hin ->] | [Hin ->]]]];
    match goal with
    | |- context [heuristic_step id row ?st] =>
        destruct (heuristic_step_cases id row st)
          as [-> | [(-> & s & Hcell & Hs & ->) | (-> & t & Hcell & Ht & ->)]]
    end;
    try (exfalso; cbn in Hin; intuition discriminate).
  - now left.
  - right. left. now split.
  - right. right. left. split; [reflexivity | ]. exists s. now repeat split.
  - right. right. right. left. now split.
  - right. right. right. right. left.
    split; [reflexivity | ]. exists t. now repeat split.
  - right. right. right. right. right. now split.
Qed.

Lemma high_risk_ids_apart (id : Z) :
  In id high_risk_ids ->
  ~ In id medium_risk_ids /\ ~ In id low_risk_ids.
Proof.
  intros Hin. cbn in Hin.
  each_id Hin; split; intros H; cbn in H; intuition discriminate.
Qed.

Lemma score_row_high (id : Z) (row : Row) :
  In id high_risk_ids ->
  score_row id row = (3, ["High-risk event: " +:+ describe id]).
Proof.
  intros Hin. destruct (high_risk_ids_apart id Hin) as [Hnm Hnl].
  destruct (score_row_cases id row)
    as [[_ H] | [[Hm _] | [[-> _] | [[Hl _] | [[-> _] | [Hn _]]]]]].
  - exact H.
  - tauto.
  - exfalso. apply Hnm. simpl. tauto.
  - tauto.
  - exfalso. apply Hnl. simpl. tauto.
  - exfalso. apply Hn. apply in_or_app. now left.
Qed.

(** X1. A high-risk id scores exactly 3 with the one tier reason, whatever
    the other cells of the row hold: no field check applies to it. *)
Theorem high_risk_score_fixed (id : Z) (row : Row) (acc : list Result) :
  In id high_risk_ids ->
  event_id_of row = Some id ->
  score_row id row = (3, ["High-risk event: " +:+ describe id]) /\
  exists r : Result,
    loop_body row acc = Py.Ok (acc ++ [r]) /\
    suspicious_score r = 3 /\
    reasons r = "High-risk event: " +:+ event_name r.
Proof.
  intros Hin Hid. pose proof (score_row_high id row Hin) as Hscore.
  split; [exact Hscore | ].
  exists (make_result id row (score_row id row)). split.
  - apply loop_body_emit; [exact Hid | rewrite Hscore; simpl; lia].
  - rewrite Hscore. split; reflexivity.
Qed.

Lemma high_risk_score_fixed_witness :
  score_row 4648 explicit_logon_row
  = (3, ["High-risk event: Logon with Explicit Credentials"]).
Proof.
  apply (high_risk_score_fixed 4648 explicit_logon_row []).
  - simpl. tauto.
  - reflexivity.
Defined.

(** X2. Every result of a frame has a score from 1 to 4; the score is 3
    exactly for the high-risk ids and 4 only for process creations. *)
Theorem result_score_range
    (df : list Row) (out : list Result) (r : Result) :
  analyze_suspicious_windows_events df = Py.Ok out ->
  In r out ->
  1 <= suspicious_score r <= 4 /\
  (suspicious_score r = 3 <-> In (event_id r) high_risk_ids) /\
  (suspicious_score r = 4 -> event_id r = 4688).
Proof.
  intros Hrun Hin.
  destruct (analyze_result_inv df out r Hrun Hin)
    as (row & id & _ & _ & Hpos & ->).
  cbn [suspicious_score event_id make_result].
  destruct (score_row_cases id row)
    as [[Hh H] | [[Hm H] | [(-> & s & _ & _ & H) | [[Hl H] |
        [(-> & t & _ & _ & H) | [Hn H]]]]]];
    rewrite H in *; cbn [fst] in *; [ | | | | | lia];
    (split; [lia | split; [split | ]]);
    try (intros ?; lia); try (intros _; assumption);
    try (intros _; reflexivity).
  - intros Hh. destruct (high_risk_ids_apart id Hh) as [Hno _]. tauto.
  - intros Hh. destruct (high_risk_ids_apart 4688 Hh) as [Hno _].
    exfalso. apply Hno. simpl. tauto.
  - intros Hh. destruct (high_risk_ids_apart id Hh) as [_ Hno]. tauto.
  - intros Hh. destruct (high_risk_ids_apart 4624 Hh) as [_ Hno].
    exfalso. apply Hno. simpl. tauto.
Qed.

Lemma result_score_range_witness :
  1 <= suspicious_score (make_result 4688 cmd_row (score_row 4688 cmd_row)) <= 4.
Proof.
  apply (result_score_range mixed_frame
           (flat_map results_of mixed_frame)
           (make_result 4688 cmd_row (score_row 4688 cmd_row))).
  - reflexivity.
  - vm_compute. tauto.
Defined.

(** X3. The row is kept in [raw_data] exactly for a high-risk id and for a
    process creation whose name cell is a str with a listed name. *)
Theorem raw_data_kept_for
    (row : Row) (acc : list Result) (r : Result) :
  loop_body row acc = Py.Ok (acc ++ [r]) ->
  (raw_data r = Some row <->
   In (event_id r) high_risk_ids \/
   (event_id r = 4688 /\
    exists s : string,
      row !! "New_Process_Name" = Some (Py.PStr s) /\
      suspicious_process_name s = true)).
Proof.
  intros H. apply loop_body_emit_inv in H as (id & _ & Hpos & ->).
  cbn [raw_data event_id make_result]. split.
  - destruct (score_row_cases id row)
      as [[Hh H] | [[Hm H] | [(-> & s & Hcell & Hs & H) | [[Hl H] |
          [(-> & t & _ & _ & H) | [Hn H]]]]]];
      rewrite H; cbn [fst]; try discriminate.
    + intros _. now left.
    + intros _. right. split; [reflexivity | ]. now exists s.
  - intros [Hh | (-> & s & Hcell & Hs)].
    + now rewrite (score_row_high id row Hh).
    + unfold score_row. now rewrite (process_check_fires row s _ Hcell Hs).
Qed.

Lemma raw_data_kept_for_witness :
  raw_data (make_result 4688 cmd_row (score_row 4688 cmd_row)) = Some cmd_row
  <->
  In 4688 high_risk_ids \/
  (4688 = 4688 /\
   exists s : string,
     cmd_row !! "New_Process_Name" = Some (Py.PStr s) /\
     suspicious_process_name s = true).
Proof.
  apply (raw_data_kept_for cmd_row []
           (make_result 4688 cmd_row (score_row 4688 cmd_row))).
  reflexivity.
Defined.

(** X4. The results of a frame made of two parts are the results of the
    first part followed by those of the second: rows are classified one by
    one and the order of the rows is kept. *)
Theorem analyze_app (df1 df2 : list Row) :
  exists out1 out2 : list Result,
    analyze_suspicious_windows_events df1 = Py.Ok out1 /\
    analyze_suspicious_windows_events df2 = Py.Ok out2 /\
    analyze_suspicious_windows_events (df1 ++ df2) = Py.Ok (out1 ++ out2).
Proof.
  exists (flat_map results_of df1), (flat_map results_of df2).
  rewrite !analyze_flat_map. now rewrite flat_map_app.
Qed.

(** X5. Frames that hold the same rows in another order give the same
    results, in another order. *)
Theorem analyze_permutation
    (df1 df2 : list Row) (out1 out2 : list Result) :
  Permutation df1 df2 ->
  analyze_suspicious_windows_events df1 = Py.Ok out1 ->
  analyze_suspicious_windows_events df2 = Py.Ok out2 ->
  Permutation out1 out2.
Proof.
  rewrite !analyze_flat_map. intros Hperm [= <-] [= <-].
  now apply Permutation_flat_map.
Qed.

Lemma analyze_permutation_witness :
  Permutation
    (flat_map results_of [cmd_row; failed_logon_row; local_logon_row])
    (flat_map results_of [local_logon_row; cmd_row; failed_logon_row]).
Proof.
  apply (analyze_permutation
           [cmd_row; failed_logon_row; local_logon_row]
           [local_logon_row; cmd_row; failed_logon_row]).
  - symmetry.
    apply (Permutation_cons_append [cmd_row; failed_logon_row] local_logon_row).
  - reflexivity.
  - reflexivity.
Defined.

Lemma prefix_append (a b : string) : String.prefix a (a +:+ b) = true.
Proof.
  induction a as [ | c a IH]; simpl.
  - now destruct b.
  - destruct (ascii_dec c c) as [_ | Hne]; [exact IH | now elim Hne].
Qed.

Lemma prefix_same (a : string) : String.prefix a a = true.
Proof.
  induction a as [ | c a IH]; simpl; [reflexivity | ].
  destruct (ascii_dec c c) as [_ | Hne]; [exact IH | now elim Hne].
Qed.

(** X6. The text of the reasons of every result opens with the tier reason,
    which names the event by the result's own [event_name]; it is never the
    fallback "Generic suspicious". *)
Theorem reasons_open_with_tier
    (df : list Row) (out : list Result) (r : Result) :
  analyze_suspicious_windows_events df = Py.Ok out ->
  In r out ->
  (exists label : string,
     In label ["High-risk event: "; "Medium-risk event: "; "Info event: "] /\
     String.prefix (label +:+ event_name r) (reasons r) = true) /\
  reasons r <> "Generic suspicious".
Proof.
  intros Hrun Hin.
  destruct (analyze_result_inv df out r Hrun Hin)
    as (row & id & _ & _ & Hpos & ->).
  cbn [reasons event_name make_result].
  destruct (score_row_cases id row)
    as [[Hh H] | [[Hm H] | [(-> & s & _ & _ & H) | [[Hl H] |
        [(-> & t & _ & _ & H) | [Hn H]]]]]];
    rewrite H in *; cbn [fst snd] in *; [ | | | | | lia].
  - split; [ | discriminate].
    exists "High-risk event: ". split; [simpl; tauto | apply prefix_same].
  - split; [ | discriminate].
    exists "Medium-risk event: ". split; [simpl; tauto | apply prefix_same].
  - split; [ | discriminate].
    exists "Medium-risk event: ". split; [simpl; tauto | ].
    apply (prefix_append ("Medium-risk event: " +:+ describe 4688)).
  - split; [ | discriminate].
    exists "Info event: ". split; [simpl; tauto | apply prefix_same].
  - split; [ | discriminate].
    exists "Info event: ". split; [simpl; tauto | ].
    apply (prefix_append ("Info event: " +:+ describe 4624)).
Qed.

Lemma reasons_open_with_tier_witness :
  reasons (make_result 4688 cmd_row (score_row 4688 cmd_row))
  <> "Generic suspicious".
Proof.
  apply (reasons_open_with_tier mixed_frame
           (flat_map results_of mixed_frame)
           (make_result 4688 cmd_row (score_row 4688 cmd_row))).
  - reflexivity.
  - vm_compute. tauto.
Defined.

(** [needle in hay] holds exactly when [hay] has [needle] somewhere in it. *)
Lemma contains_unfold (needle hay : string) :
  Py.contains needle hay =
  if String.prefix needle hay then true
  else
    match hay with
    | String _ t => Py.contains needle t
    | EmptyString => false
    end.
Proof. now destruct hay. Qed.

Lemma prefix_split (a h : string) :
  String.prefix a h = true -> exists suf : string, h = a +:+ suf.
Proof.
  revert h. induction a as [ | c a IH]; intros h Hp.
  - now exists h.
  - destruct h as [ | c' h]; simpl in Hp; [discriminate | ].
    destruct (ascii_dec c c') as [<- | _]; [ | discriminate].
    destruct (IH h Hp) as [suf ->]. now exists suf.
Qed.

Lemma contains_spec (needle hay : string) :
  Py.contains needle hay = true <->
  exists pre suf : string, hay = pre +:+ needle +:+ suf.
Proof.
  split.
  - induction hay as [ | c t IH]; rewrite contains_unfold.
    + destruct (String.prefix needle "") eqn:Hp; [ | discriminate].
      intros _. destruct (prefix_split _ _ Hp) as [suf Hsuf].
      now exists "", suf.
    + destruct (String.prefix needle (String c t)) eqn:Hp.
      * intros _. destruct (prefix_split _ _ Hp) as [suf Hsuf].
        now exists "", suf.
      * intros Ht. destruct (IH Ht) as (pre & suf & ->).
        now exists (String c pre), suf.
  - intros (pre & suf & ->). induction pre as [ | c pre IH].
    + rewrite contains_unfold.
      change ("" +:+ needle +:+ suf) with (needle +:+ suf).
      now rewrite prefix_append.
    + rewrite contains_unfold.
      destruct (String.prefix needle (String c pre +:+ needle +:+ suf));
        [reflexivity | exact IH].
Qed.

Lemma lower_append (a b : string) :
  Py.lower (a +:+ b) = Py.lower a +:+ Py.lower b.
Proof.
  induction a as [ | c a IH]; simpl; [reflexivity | now rewrite IH].
Qed.

(** X7. A process name is flagged exactly when its lowered text has one of
    the six listed names somewhere in it. *)
Theorem process_check_substring (name : string) :
  suspicious_process_name name = true <->
  exists proc pre suf : string,
    In proc suspicious_processes /\
    Py.lower name = pre +:+ proc +:+ suf.
Proof.
  unfold suspicious_process_name. rewrite existsb_exists. split.
  - intros (proc & Hin & Hc). apply contains_spec in Hc as (pre & suf & Heq).
    now exists proc, pre, suf.
  - intros (proc & pre & suf & Hin & Heq). exists proc. split; [exact Hin | ].
    apply contains_spec. now exists pre, suf.
Qed.

(** X8. A listed name in any casing, with any text before and after it
    (a folder, an extension, arguments), is flagged. *)
Theorem process_check_any_case (pre s suf : string) :
  In (Py.lower s) suspicious_processes ->
  suspicious_process_name (pre +:+ s +:+ suf) = true.
Proof.
  intros Hin. unfold suspicious_process_name. apply existsb_exists.
  exists (Py.lower s). split; [exact Hin | ].
  apply contains_spec. exists (Py.lower pre), (Py.lower suf).
  now rewrite !lower_append.
Qed.

Lemma process_check_any_case_witness :
  suspicious_process_name
    ("C:/Windows/SysWOW64/" +:+ "MsHta" +:+ ".EXE vbscript:Execute")
  = true.
Proof.
  apply (process_check_any_case
           "C:/Windows/SysWOW64/" "MsHta" ".EXE vbscript:Execute").
  simpl. tauto.
Defined.

(** Reading back the decimal text of a number. *)
Lemma digits_tail_uint_acc (u : Decimal.uint) :
  forall acc : positive,
    Py.digits_tail (NilEmpty.string_of_uint u) (Z.pos acc) false
    = Some (Z.pos (Pos.of_uint_acc u acc)).
Proof.
  induction u as [ | u IH | u IH | u IH | u IH | u IH | u IH | u IH | u IH
                   | u IH | u IH ]; intros acc;
    [reflexivity | ..];
    cbn [NilEmpty.string_of_uint Py.digits_tail Pos.of_uint_acc];
    match goal with
    | |- context [Py.digit_of ?c] =>
        let d := eval vm_compute in (Py.digit_of c) in
        change (Py.digit_of c) with d
    end;
    cbv iota beta; rewrite <- IH; f_equal; lia.
Qed.

Lemma digits_uint (u : Decimal.uint) :
  u <> Decimal.Nil ->
  Py.digits (NilEmpty.string_of_uint u) = Some (Z.of_N (Pos.of_uint u)).
Proof.
  induction u as [ | u IH | u IH | u IH | u IH | u IH | u IH | u IH | u IH
                   | u IH | u IH ]; intros Hnil;
    [now elim Hnil | ..];
    cbn [NilEmpty.string_of_uint Py.digits Pos.of_uint];
    match goal with
    | |- context [Py.digit_of ?c] =>
        let d := eval vm_compute in (Py.digit_of c) in
        change (Py.digit_of c) with d
    end;
    cbv iota beta; try apply digits_tail_uint_acc.
  destruct u; try (apply IH; discriminate).
  reflexivity.
Qed.

(** Text below U+007F is read as it stands. *)
Lemma code_points_cons_ascii (c : ascii) (t : string) :
  (Py.byte c <? 128) = true ->
  Py.code_points (String c t) = Py.byte c :: Py.code_points t.
Proof. intros Hlt. cbn [Py.code_points]. cbv zeta. now rewrite Hlt. Qed.

Lemma chr_byte (c : ascii) : Py.chr (Py.byte c) = c.
Proof.
  unfold Py.chr, Py.byte. rewrite Nat2Z.id. apply ascii_nat_embedding.
Qed.

Lemma to_ascii_cons_ascii (c : ascii) (t : string) :
  (Py.byte c <? 127) = true ->
  Py.to_ascii (Py.code_points (String c t))
  = String c (Py.to_ascii (Py.code_points t)).
Proof.
  intros Hlt. rewrite code_points_cons_ascii.
  - cbn [Py.to_ascii]. now rewrite Hlt, chr_byte.
  - apply Z.ltb_lt in Hlt. apply Z.ltb_lt. lia.
Qed.

Lemma to_ascii_uint (u : Decimal.uint) :
  Py.to_ascii (Py.code_points (NilEmpty.string_of_uint u))
  = NilEmpty.string_of_uint u.
Proof.
  induction u as [ | u IH | u IH | u IH | u IH | u IH | u IH | u IH | u IH
                   | u IH | u IH ];
    [reflexivity | ..];
    cbn [NilEmpty.string_of_uint];
    rewrite to_ascii_cons_ascii by reflexivity; now rewrite IH.
Qed.

Lemma int_of_ascii_uint (u : Decimal.uint) :
  u <> Decimal.Nil ->
  Py.int_of_ascii (NilEmpty.string_of_uint u)
  = Py.Ok (Z.of_N (Pos.of_uint u)) /\
  Py.int_of_ascii (String "-" (NilEmpty.string_of_uint u))
  = Py.Ok (- Z.of_N (Pos.of_uint u)) /\
  NilEmpty.string_of_uint u <> "".
Proof.
  intros Hnil. pose proof (digits_uint u Hnil) as Hd.
  split; [ | split].
  - unfold Py.int_of_ascii.
    destruct u; [now elim Hnil | ..];
      cbn [NilEmpty.string_of_uint Py.lstrip] in *;
      match goal with
      | |- context [Py.is_space ?c] =>
          let b := eval vm_compute in (Py.is_space c) in
          change (Py.is_space c) with b
      end; cbv iota beta; now rewrite Hd.
  - unfold Py.int_of_ascii. cbn [Py.lstrip].
    change (Py.is_space "-") with false. cbv iota beta. now rewrite Hd.
  - destruct u; [now elim Hnil | ..]; discriminate.
Qed.

Lemma int_of_str_of_int (n : Z) :
  Py.int_of_str (Py.str_of_int n) = Py.Ok n /\ Py.str_of_int n <> "".
Proof.
  unfold Py.str_of_int, Py.int_of_str. destruct n as [ | p | p].
  - split; [reflexivity | discriminate].
  - cbn [Z.to_int NilEmpty.string_of_int]. rewrite to_ascii_uint.
    destruct (int_of_ascii_uint (Pos.to_uint p)
                (DecimalPos.Unsigned.to_uint_nonnil p))
      as (H & _ & Hne).
    rewrite DecimalPos.Unsigned.of_to in H. now split.
  - cbn [Z.to_int NilEmpty.string_of_int].
    rewrite to_ascii_cons_ascii by reflexivity. rewrite to_ascii_uint.
    destruct (int_of_ascii_uint (Pos.to_uint p)
                (DecimalPos.Unsigned.to_uint_nonnil p))
      as (_ & H & _).
    rewrite DecimalPos.Unsigned.of_to in H. split; [exact H | discriminate].
Qed.

(** The score reads two cells of the row besides the event id. *)
Lemma score_row_ext (id : Z) (row1 row2 : Row) :
  row1 !! "New_Process_Name" = row2 !! "New_Process_Name" ->
  row1 !! "Logon_Type" = row2 !! "Logon_Type" ->
  score_row id row1 = score_row id row2.
Proof.
  intros Hp Hl. unfold score_row, heuristic_step, row_get, row_get_or.
  now rewrite Hp, Hl.
Qed.

Lemma verdict_results_ext (id : Z) (row1 row2 : Row) :
  event_id_of row1 = Some id ->
  event_id_of row2 = Some id ->
  score_row id row1 = score_row id row2 ->
  verdict <$> results_of row1 = verdict <$> results_of row2.
Proof.
  intros H1 H2 Hs. rewrite !results_of_spec, H1, H2, Hs.
  now destruct (0 <? fst (score_row id row2)).
Qed.

(** X9. An event id written as decimal text is read back as the same number,
    and the record is then judged as the one that holds the number itself. *)
Theorem decimal_text_event_id (n : Z) (row : Row) :
  event_id_of (<[ "EventCode" := Py.PStr (Py.str_of_int n) ]> row) = Some n /\
  verdict <$> results_of (<[ "EventCode" := Py.PStr (Py.str_of_int n) ]> row)
  = verdict <$> results_of (<[ "EventCode" := Py.PInt n ]> row).
Proof.
  destruct (int_of_str_of_int n) as [Hint Hne].
  assert (Htext : event_id_of
                    (<[ "EventCode" := Py.PStr (Py.str_of_int n) ]> row)
                  = Some n).
  { unfold event_id_of, row_get. rewrite lookup_insert_eq.
    cbv beta iota delta [default from_option id Py.truthy Py.int].
    rewrite Hint. apply String.eqb_neq in Hne. now rewrite Hne. }
  split; [exact Htext | ].
  assert (Hnum : event_id_of (<[ "EventCode" := Py.PInt n ]> row)
                 = if n =? 0 then None else Some n).
  { unfold event_id_of, row_get. rewrite lookup_insert_eq.
    cbv beta iota delta [default from_option id Py.truthy Py.int].
    now destruct (n =? 0). }
  destruct (Z.eqb_spec n 0) as [-> | Hnz].
  - rewrite !results_of_spec, Htext, Hnum. reflexivity.
  - apply (verdict_results_ext n); [exact Htext | exact Hnum | ].
    apply score_row_ext; now rewrite !lookup_insert_ne.
Qed.

(** X10. The verdict on a record (id, name, score, reasons) depends on three
    cells only: rows that agree on [EventCode], [New_Process_Name] and
    [Logon_Type] get the same verdict, whatever their other cells hold. *)
Theorem verdict_reads_three_cells (row1 row2 : Row) :
  row1 !! "EventCode" = row2 !! "EventCode" ->
  row1 !! "New_Process_Name" = row2 !! "New_Process_Name" ->
  row1 !! "Logon_Type" = row2 !! "Logon_Type" ->
  verdict <$> results_of row1 = verdict <$> results_of row2.
Proof.
  intros He Hp Hl.
  assert (Hid : event_id_of row1 = event_id_of row2).
  { unfold event_id_of, row_get. now rewrite He. }
  destruct (event_id_of row2) as [id | ] eqn:H2.
  - apply (verdict_results_ext id); [exact Hid | exact H2 | ].
    now apply score_row_ext.
  - rewrite !results_of_spec, Hid, H2. reflexivity.
Qed.

Lemma verdict_reads_three_cells_witness :
  verdict <$> results_of failed_logon_row
  = verdict <$> results_of {[ "EventCode" := Py.PInt 4625 ]}.
Proof.
  apply (verdict_reads_three_cells
           failed_logon_row {[ "EventCode" := Py.PInt 4625 ]});
    reflexivity.
Defined.

(** ** Properties of the summary and of the charts *)

Section counting_facts.
Context {K : Type} `{EqDecision K}.

Lemma count_rows_cons (k x : K) (col : list K) :
  count_rows k (x :: col)
  = ((if decide (x = k) then 1 else 0) + count_rows k col)%nat.
Proof.
  unfold count_rows. rewrite filter_cons.
  now destruct (decide (x = k)).
Qed.

Lemma count_rows_positive (k : K) (col : list K) :
  k ∈ col -> (1 <= count_rows k col)%nat.
Proof.
  induction col as [ | x col IH]; intros Hin.
  - now apply not_elem_of_nil in Hin.
  - rewrite count_rows_cons. destruct (decide (x = k)) as [ | Hne]; [lia | ].
    apply elem_of_cons in Hin as [-> | Hin]; [now elim Hne | ].
    specialize (IH Hin). lia.
Qed.

Lemma sum_marks_absent (x : K) (keys : list K) :
  x ∉ keys ->
  sum_list_with (fun k => if decide (x = k) then 1%nat else 0%nat) keys
  = 0%nat.
Proof.
  induction keys as [ | k keys IH]; intros Hnot; simpl; [reflexivity | ].
  apply not_elem_of_cons in Hnot as [Hne Hnot].
  destruct (decide (x = k)); [contradiction | ]. now rewrite IH.
Qed.

Lemma sum_marks_present (x : K) (keys : list K) :
  NoDup keys -> x ∈ keys ->
  sum_list_with (fun k => if decide (x = k) then 1%nat else 0%nat) keys
  = 1%nat.
Proof.
  induction 1 as [ | k keys Hk Hnd IH]; intros Hin; simpl.
  - now apply not_elem_of_nil in Hin.
  - destruct (decide (x = k)) as [-> | Hne].
    + now rewrite sum_marks_absent.
    + apply elem_of_cons in Hin as [-> | Hin]; [now elim Hne | ].
      now rewrite IH.
Qed.

(** Over distinct keys that cover the column, the counts add up to the
    length of the column. *)
Lemma sum_count_rows (keys col : list K) :
  NoDup keys ->
  (forall x, x ∈ col -> x ∈ keys) ->
  sum_list_with (fun k => count_rows k col) keys = length col.
Proof.
  intros Hnd. induction col as [ | x col IH]; intros Hcov.
  - induction keys as [ | k keys IHk]; simpl; [reflexivity | ].
    apply NoDup_cons in Hnd as [_ Hnd]. now rewrite IHk.
  - assert (Hsplit :
      sum_list_with (fun k => count_rows k (x :: col)) keys
      = (sum_list_with
           (fun k => if decide (x = k) then 1%nat else 0%nat) keys
         + sum_list_with (fun k => count_rows k col) keys)%nat).
    { clear. induction keys as [ | k keys IHk]; simpl; [reflexivity | ].
      rewrite IHk, count_rows_cons. lia. }
    rewrite Hsplit, sum_marks_present, IH; simpl; try lia.
    + intros y Hy. apply Hcov. now right.
    + exact Hnd.
    + apply Hcov. now left.
Qed.

Context (le : K -> K -> bool).

Lemma size_by_key_keys (col : list K) :
  (size_by_key le col).*1
  = merge_sort (fun x y => Is_true (le x y)) (remove_dups col).
Proof.
  unfold size_by_key. rewrite <- list_fmap_compose.
  apply list_fmap_id.
Qed.

Lemma size_by_key_keys_perm (col : list K) :
  (size_by_key le col).*1 ≡ₚ remove_dups col.
Proof. rewrite size_by_key_keys. apply merge_sort_Permutation. Qed.

Lemma size_by_key_NoDup (col : list K) : NoDup (size_by_key le col).*1.
Proof. rewrite size_by_key_keys_perm. apply NoDup_remove_dups. Qed.

Lemma size_by_key_elem (col : list K) (k : K) (n : nat) :
  (k, n) ∈ size_by_key le col <-> k ∈ col /\ n = count_rows k col.
Proof.
  unfold size_by_key. rewrite list_elem_of_fmap. split.
  - intros (k' & [= -> ->] & Hin).
    rewrite merge_sort_Permutation, elem_of_remove_dups in Hin. now split.
  - intros [Hin ->]. exists k. split; [reflexivity | ].
    now rewrite merge_sort_Permutation, elem_of_remove_dups.
Qed.

Lemma size_by_key_total (col : list K) :
  sum_list (size_by_key le col).*2 = length col.
Proof.
  unfold size_by_key. rewrite <- list_fmap_compose.
  change (snd ∘ (fun k => (k, count_rows k col)))
    with (fun k => count_rows k col).
  rewrite <- (sum_count_rows
                (merge_sort (fun x y => Is_true (le x y)) (remove_dups col))
                col).
  - generalize (merge_sort (fun x y => Is_true (le x y)) (remove_dups col)).
    intros l. induction l as [ | k l IH]; [reflexivity | ].
    cbn [fmap list_fmap sum_list sum_list_with]. f_equal. exact IH.
  - rewrite merge_sort_Permutation. apply NoDup_remove_dups.
  - intros x Hx. now rewrite merge_sort_Permutation, elem_of_remove_dups.
Qed.
End counting_facts.

(** Facts about the results of a frame that the tables rely on. *)
Lemma analyze_result_facts (df : list Row) (out : list Result) (r : Result) :
  analyze_suspicious_windows_events df = Py.Ok out ->
  In r out ->
  1 <= suspicious_score r <= 4 /\
  event_name r = describe (event_id r) /\
  event_descriptions !! event_id r = Some (event_name r) /\
  (raw_data r <> None <-> 3 <= suspicious_score r).
Proof.
  intros Hrun Hin.
  destruct (analyze_result_inv df out r Hrun Hin)
    as (row & id & _ & _ & Hpos & ->).
  cbn [suspicious_score event_id event_name raw_data make_result].
  split; [ | split; [reflexivity | split]].
  - destruct (score_row_cases id row)
      as [[_ H] | [[_ H] | [(_ & s & _ & _ & H) | [[_ H] |
          [(_ & t & _ & _ & H) | [_ H]]]]]];
      rewrite H in *; cbn [fst] in *; lia.
  - destruct (tiered_id_described id (positive_score_tiered id row Hpos))
      as [name Hname].
    unfold describe. now rewrite Hname.
  - destruct (Z.leb_spec 3 (fst (score_row id row))); split;
      (discriminate || lia || congruence).
Qed.

(** X11. The table of counts per (event id, event name) lists every pair
    that occurs once, with a count of at least 1, and the counts add up to
    the number of results. *)
Theorem event_counts_total (suspicious_df : list Result) :
  sum_list (event_counts suspicious_df).*2 = length suspicious_df /\
  NoDup (event_counts suspicious_df).*1 /\
  forall (key : Z * string) (n : nat),
    In (key, n) (event_counts suspicious_df) <->
    (exists r : Result,
       In r suspicious_df /\ key = (event_id r, event_name r)) /\
    n = length (filter (fun r => (event_id r, event_name r) = key)
                       suspicious_df) /\
    (1 <= n)%nat.
Proof.
  unfold event_counts.
  split; [now rewrite size_by_key_total, length_fmap | ].
  split; [apply size_by_key_NoDup | ].
  intros key n. rewrite <- list_elem_of_In, size_by_key_elem.
  assert (Hcount : count_rows key
                     ((fun r => (event_id r, event_name r)) <$> suspicious_df)
                   = length (filter (fun r => (event_id r, event_name r) = key)
                                    suspicious_df)).
  { induction suspicious_df as [ | r l IH]; [reflexivity | ].
    rewrite fmap_cons, count_rows_cons, filter_cons, IH.
    now destruct (decide ((event_id r, event_name r) = key)). }
  rewrite <- Hcount. split.
  - intros [Hin ->]. split; [ | split; [reflexivity | ]].
    + apply list_elem_of_fmap in Hin as (r & -> & Hr).
      exists r. split; [now apply list_elem_of_In | reflexivity].
    + now apply count_rows_positive.
  - intros ((r & Hr & ->) & -> & _). split; [ | reflexivity].
    apply list_elem_of_fmap. exists r.
    split; [reflexivity | now apply list_elem_of_In].
Qed.

Lemma count_rows_by_id (out : list Result) (id : Z) :
  (forall r, r ∈ out -> event_name r = describe (event_id r)) ->
  count_rows (id, describe id)
    ((fun r => (event_id r, event_name r)) <$> out)
  = length (filter (fun r => event_id r = id) out).
Proof.
  induction out as [ | x l IH]; intros Hname; [reflexivity | ].
  rewrite fmap_cons, count_rows_cons, filter_cons.
  rewrite IH by (intros y Hy; apply Hname; now right).
  rewrite (Hname x) by now left.
  destruct (decide (event_id x = id)) as [-> | Hne].
  - now destruct (decide ((id, describe id) = (id, describe id))).
  - destruct (decide ((event_id x, describe (event_id x)) = (id, describe id)))
      as [[= Heq _] | _]; [now elim Hne | reflexivity].
Qed.

(** X12. On the results of a frame the table has one line per event id (as
    many lines as "Unique event types" counts); each line carries the table's
    name for the id and the number of results with that id. *)
Theorem event_counts_per_id (df : list Row) (out : list Result) :
  analyze_suspicious_windows_events df = Py.Ok out ->
  length (event_counts out) = unique_event_types out /\
  forall (id : Z) (name : string) (n : nat),
    In (id, name, n) (event_counts out) ->
    event_descriptions !! id = Some name /\
    n = length (filter (fun r => event_id r = id) out).
Proof.
  intros Hrun.
  assert (Hname : forall r, r ∈ out -> event_name r = describe (event_id r)).
  { intros r Hr. apply list_elem_of_In in Hr.
    now destruct (analyze_result_facts df out r Hrun Hr) as (_ & H & _). }
  assert (Hkeys : (fun r => (event_id r, event_name r)) <$> out
                  = (fun i => (i, describe i)) <$> (event_id <$> out)).
  { rewrite <- list_fmap_compose. apply list_fmap_ext.
    intros i r Hr. cbn. f_equal. apply Hname.
    now apply list_elem_of_lookup_2 in Hr. }
  split.
  - unfold unique_event_types.
    rewrite <- (length_fmap (fun i => (i, describe i))).
    rewrite <- (length_fmap fst (event_counts out)).
    unfold event_counts. rewrite size_by_key_keys_perm, Hkeys.
    apply Permutation_length, NoDup_Permutation.
    + apply NoDup_remove_dups.
    + apply NoDup_fmap_2; [ | apply NoDup_remove_dups].
      intros i j [= Hij _]. exact Hij.
    + intros [i nm]. rewrite elem_of_remove_dups. split.
      * intros Hin. apply list_elem_of_fmap in Hin as (j & Heq & Hj).
        apply list_elem_of_fmap. exists j.
        split; [exact Heq | now apply elem_of_remove_dups].
      * intros Hin. apply list_elem_of_fmap in Hin as (j & Heq & Hj).
        rewrite elem_of_remove_dups in Hj.
        apply list_elem_of_fmap. exists j. now split.
  - intros id name n Hin. apply list_elem_of_In in Hin.
    unfold event_counts in Hin. apply size_by_key_elem in Hin as [Hin ->].
    apply list_elem_of_fmap in Hin as (r & [= -> ->] & Hr).
    pose proof Hr as Hr'. apply list_elem_of_In in Hr'.
    destruct (analyze_result_facts df out r Hrun Hr') as (_ & _ & Hd & _).
    split; [exact Hd | ].
    rewrite (Hname r Hr). now apply count_rows_by_id.
Qed.

Lemma event_counts_per_id_witness :
  length (event_counts (flat_map results_of mixed_frame))
  = unique_event_types (flat_map results_of mixed_frame).
Proof.
  apply (event_counts_per_id mixed_frame (flat_map results_of mixed_frame)).
  reflexivity.
Defined.

(** The order of the score levels. *)
#[local] Instance score_le_total : Total (fun x y : Z => Is_true (x <=? y)).
Proof.
  intros x y. destruct (Z.leb_spec x y); [now left | right].
  apply Is_true_true, Z.leb_le. lia.
Qed.

#[local] Instance score_le_trans :
  Transitive (fun x y : Z => Is_true (x <=? y)).
Proof.
  intros x y z Hxy Hyz. apply Is_true_true, Z.leb_le.
  apply Is_true_true, Z.leb_le in Hxy, Hyz. lia.
Qed.

#[local] Instance score_le_antisym :
  AntiSymm (=) (fun x y : Z => Is_true (x <=? y)).
Proof.
  intros x y Hxy Hyx. apply Is_true_true, Z.leb_le in Hxy, Hyx. lia.
Qed.

(** X13. On the results of a frame the levels of the risk chart are those of
    1, 2, 3, 4 that occur as a score, in ascending order, and their counts add
    up to the number of results; the three colours are fewer than the levels
    exactly when all four scores occur. *)
Theorem risk_levels (df : list Row) (out : list Result) :
  analyze_suspicious_windows_events df = Py.Ok out ->
  (risk_distribution out).*1
  = filter (fun s => s ∈ suspicious_score <$> out) [1; 2; 3; 4] /\
  sum_list (risk_distribution out).*2 = length out /\
  ((length (pie_colors out) < length (risk_distribution out))%nat <->
   forall s : Z,
     In s [1; 2; 3; 4] ->
     exists r : Result, In r out /\ suspicious_score r = s).
Proof.
  intros Hrun.
  assert (Hrange : forall s, s ∈ suspicious_score <$> out -> s ∈ [1; 2; 3; 4]).
  { intros s Hs. apply list_elem_of_fmap in Hs as (r & -> & Hr).
    apply list_elem_of_In in Hr.
    destruct (analyze_result_facts df out r Hrun Hr) as (Hb & _).
    assert (Hcase : suspicious_score r = 1 \/ suspicious_score r = 2 \/
                    suspicious_score r = 3 \/ suspicious_score r = 4) by lia.
    apply list_elem_of_In.
    destruct Hcase as [-> | [-> | [-> | ->]]]; simpl; tauto. }
  assert (Hkeys : (risk_distribution out).*1
                  = filter (fun s => s ∈ suspicious_score <$> out)
                           [1; 2; 3; 4]).
  { unfold risk_distribution. rewrite size_by_key_keys.
    apply (Sorted_unique (fun x y : Z => Is_true (x <=? y))).
    - apply Sorted_merge_sort; apply _.
    - rewrite !filter_cons, filter_nil.
      repeat (match goal with
              | |- context [decide ?P] => destruct (decide P)
              end);
        repeat constructor.
    - rewrite merge_sort_Permutation. apply NoDup_Permutation.
      + apply NoDup_remove_dups.
      + apply NoDup_filter, NoDup_ListNoDup.
        repeat constructor; simpl; intuition discriminate.
      + intros s. rewrite elem_of_remove_dups, list_elem_of_filter.
        split; [ | tauto].
        intros Hs. split; [exact Hs | now apply Hrange]. }
  split; [exact Hkeys | ].
  split.
  { unfold risk_distribution. now rewrite size_by_key_total, length_fmap. }
  unfold pie_colors. rewrite length_take.
  rewrite <- (length_fmap fst (risk_distribution out)), Hkeys.
  assert (Hocc : forall s : Z,
             s ∈ suspicious_score <$> out <->
             exists r : Result, In r out /\ suspicious_score r = s).
  { intros s. rewrite list_elem_of_fmap. split.
    - intros (r & -> & Hr). exists r. split; [now apply list_elem_of_In | reflexivity].
    - intros (r & Hr & <-). exists r. split; [reflexivity | now apply list_elem_of_In]. }
  rewrite !filter_cons, filter_nil. split.
  - intros Hlt s Hs. apply Hocc. revert Hlt.
    destruct (decide (1 ∈ suspicious_score <$> out));
      destruct (decide (2 ∈ suspicious_score <$> out));
      destruct (decide (3 ∈ suspicious_score <$> out));
      destruct (decide (4 ∈ suspicious_score <$> out));
      cbn [length]; intros Hlt; try lia.
    cbn in Hs. destruct Hs as [<- | [<- | [<- | [<- | []]]]]; assumption.
  - intros Hall.
    destruct (decide (1 ∈ suspicious_score <$> out)) as [ | Hn];
      [ | elim Hn; apply Hocc, Hall; simpl; tauto].
    destruct (decide (2 ∈ suspicious_score <$> out)) as [ | Hn];
      [ | elim Hn; apply Hocc, Hall; simpl; tauto].
    destruct (decide (3 ∈ suspicious_score <$> out)) as [ | Hn];
      [ | elim Hn; apply Hocc, Hall; simpl; tauto].
    destruct (decide (4 ∈ suspicious_score <$> out)) as [ | Hn];
      [ | elim Hn; apply Hocc, Hall; simpl; tauto].
    cbn [length]. lia.
Qed.

Lemma risk_levels_witness :
  (risk_distribution (flat_map results_of mixed_frame)).*1
  = filter (fun s => s ∈ suspicious_score
                             <$> flat_map results_of mixed_frame)
           [1; 2; 3; 4].
Proof.
  apply (risk_levels mixed_frame (flat_map results_of mixed_frame)).
  reflexivity.
Defined.

(** X14. The three places that compare a score with 3 agree on the results
    of a frame: the results listed as high-risk are those that kept their
    row, in the order of the frame; the chart calls a level "High" exactly
    for such results; and the high-risk list is empty exactly when no result
    kept its row. *)
Theorem high_risk_is_kept (df : list Row) (out : list Result) :
  analyze_suspicious_windows_events df = Py.Ok out ->
  high_risk out = filter (fun r => is_Some (raw_data r)) out /\
  (forall r : Result,
     In r out ->
     (level_name (suspicious_score r) = "High" <-> raw_data r <> None)) /\
  (high_risk out = [] <-> forall r : Result, In r out -> raw_data r = None).
Proof.
  intros Hrun.
  assert (Hkept : forall r, In r out ->
                    (raw_data r <> None <-> 3 <= suspicious_score r)).
  { intros r Hr. now destruct (analyze_result_facts df out r Hrun Hr) as (_ & _ & _ & H). }
  assert (Hfilter : forall l : list Result,
             (forall r, In r l -> In r out) ->
             high_risk l = filter (fun r => is_Some (raw_data r)) l).
  { induction l as [ | x l IH]; intros Hsub; [reflexivity | ].
    unfold high_risk in *. rewrite !filter_cons.
    rewrite IH by (intros r Hr; apply Hsub; now right).
    pose proof (Hkept x (Hsub x (or_introl eq_refl))) as Hx.
    destruct (decide (3 <= suspicious_score x)) as [Hge | Hlt];
      destruct (decide (is_Some (raw_data x))) as [Hs | Hn];
      try reflexivity.
    - exfalso. apply Hn. apply Hx in Hge.
      destruct (raw_data x); [eauto | congruence].
    - exfalso. apply Hlt, Hx. destruct Hs as [row ->]. discriminate. }
  split; [now apply Hfilter | ]. split.
  - intros r Hr. rewrite (Hkept r Hr). unfold level_name.
    destruct (Z.leb_spec 3 (suspicious_score r)); [tauto | ].
    destruct (2 <=? suspicious_score r); split; (discriminate || lia).
  - rewrite (Hfilter out) by auto. split.
    + intros Hnil r Hr. destruct (raw_data r) as [row | ] eqn:Hraw; [ | reflexivity].
      exfalso. apply list_elem_of_In in Hr.
      apply (filter_nil_not_elem_of _ _ r Hnil); [ | exact Hr].
      rewrite Hraw. eauto.
    + intros Hnone. induction out as [ | x l IH] in Hnone |- *; [reflexivity | ].
      rewrite filter_cons.
      destruct (decide (is_Some (raw_data x))) as [[row Hs] | _].
      * rewrite (Hnone x (or_introl eq_refl)) in Hs. discriminate.
      * apply IH. intros r Hr. apply Hnone. now right.
Qed.

Lemma high_risk_is_kept_witness :
  high_risk (flat_map results_of mixed_frame)
  = filter (fun r => is_Some (raw_data r)) (flat_map results_of mixed_frame).
Proof.
  apply (high_risk_is_kept mixed_frame (flat_map results_of mixed_frame)).
  reflexivity.
Defined.
